(** * gettsim: pension claims, retirement-savings deductions and
    Grundsicherung im Alter

    A shallow embedding of

    - [gettsim/transfers/rente.py]
    - [_gettsim/taxes/zu_verst_eink/vorsorgeaufw.py]
    - [gettsim/transfers/grundsicherung.py]

    and the properties of these functions.

    Numbers.  The scalar formulas of [rente.py] and [vorsorgeaufw.py] are
    Python arithmetic on [int] and [float]; they are embedded over the
    integers [Z] and the exact rationals [Q] (rounding of binary floats is
    not modelled, equality of amounts is [Qeq]).  Python raises on a scalar
    division by zero, so such a function returns a [result].  The functions
    of [grundsicherung.py] are pandas arithmetic on whole Series; pandas
    does not raise on a division by zero but stores [inf] or [NaN], so the
    entries of a Series are the rationals extended by these three values
    (module [XQ]).

    The decorator [add_rounding_spec] only attaches the key of a rounding
    rule to the function object for the caller; the decorated function
    returns the unrounded amount, which is what is embedded here. *)

From Stdlib Require Import ZArith QArith Qminmax Lqa Lia.
From stdpp Require Import base option list gmap.

Local Open Scope Q_scope.

(** ** Python results and objects *)

Module Py.

Inductive pyerr : Type :=
| TypeError
| ValueError
| AttributeError
| ZeroDivisionError.

(** A call either raises or returns. *)
Definition result (A : Type) : Type := (pyerr + A)%type.

Definition ok {A} (a : A) : result A := inr a.
Definition raise {A} (e : pyerr) : result A := inl e.

Definition rbind {A B} (m : result A) (k : A -> result B) : result B :=
  match m with
  | inl e => inl e
  | inr a => k a
  end.

(** [a / b] on Python numbers. *)
Definition truediv (a b : Q) : result Q :=
  if Qeq_bool b 0 then raise ZeroDivisionError else ok (a / b).

(** [a > b] on Python numbers. *)
Definition gt (a b : Q) : bool := negb (Qle_bool a b).

(** [a < b] on Python numbers. *)
Definition lt (a b : Q) : bool := negb (Qle_bool b a).

(** The builtin [max(a, b)] returns [a] unless [b > a]; [min(a, b)]
    returns [a] unless [b < a].  These are [Qmax] and [Qmin], which
    return their second argument only on a strict comparison. *)
Definition max (a b : Q) : Q := Qmax a b.
Definition min (a b : Q) : Q := Qmin a b.

(** *** List objects

    A Python list is an object with identity: two names can be bound
    to the same list and [extend] changes it in place.  The store maps
    the address of a list object to its elements. *)

Abbreviation loc := nat.

Inductive pyval : Type :=
| PyFloat (q : Q)
| PyNone
| PyRef (l : loc).

Abbreviation store := (list (list pyval)).

(** Statements that read and write the store, and may raise. *)
Definition py (A : Type) : Type := store -> result (A * store).

Definition ret {A} (a : A) : py A := fun s => ok (a, s).
Definition throw {A} (e : pyerr) : py A := fun _ => raise e.
Definition bind {A B} (m : py A) (k : A -> py B) : py B :=
  fun s => match m s with
           | inl e => inl e
           | inr (a, s') => k a s'
           end.

(** Run a function body in a fresh store and keep what it returns. *)
Definition run {A} (m : py A) : result A :=
  match m [] with
  | inl e => inl e
  | inr (a, _) => inr a
  end.

(** The list display [[x1, ..., xn]] allocates a new list object. *)
Definition new_list (xs : list pyval) : py pyval :=
  fun s => ok (PyRef (length s), s ++ [xs]).

(** [self.extend(arg)]: appends the items of the iterable [arg] to
    [self] in place and returns [None].  A float and [None] are not
    iterable. *)
Definition list_extend (self arg : pyval) : py pyval :=
  fun s =>
    match self with
    | PyRef l =>
        match s !! l with
        | Some xs =>
            match arg with
            | PyRef l' =>
                match s !! l' with
                | Some ys => ok (PyNone, <[l := xs ++ ys]> s)
                | None => raise TypeError
                end
            | PyFloat _ | PyNone => raise TypeError
            end
        | None => raise AttributeError
        end
    | PyFloat _ | PyNone => raise AttributeError
    end.

(** The items of a list of floats, or nothing if some item is not a
    float. *)
Fixpoint floats (xs : list pyval) : option (list Q) :=
  match xs with
  | [] => Some []
  | PyFloat q :: xs' =>
      match floats xs' with
      | Some qs => Some (q :: qs)
      | None => None
      end
  | _ :: _ => None
  end.

(** The builtin [min(iterable)]: the first smallest item; it raises
    [ValueError] on an empty list and [TypeError] on an argument that
    is not iterable or whose items do not compare. *)
Definition min_iter (v : pyval) : py Q :=
  fun s =>
    match v with
    | PyRef l =>
        match s !! l with
        | Some xs =>
            match floats xs with
            | Some [] => raise ValueError
            | Some (q :: qs) => ok (fold_left min qs q, s)
            | None => raise TypeError
            end
        | None => raise TypeError
        end
    | PyFloat _ | PyNone => raise TypeError
    end.

End Py.

(** The statements of a body are sequenced with [x ← m; k]. *)
#[export] Instance py_mret : MRet Py.py := @Py.ret.
#[export] Instance py_mbind : MBind Py.py := fun A B k m => Py.bind m k.

(** ** [gettsim/transfers/rente.py] *)

Module Rente.

(** The three sequences of a piecewise polynomial in the parameter
    table. *)
Record piecewise_spec : Type := {
  thresholds : list Q;
  rates : list Q;
  intercepts_at_lower_thresholds : list Q
}.

Record ost_west : Type := { ost : Q; west : Q }.

Record zugangsfaktor_veränderung : Type := {
  vorzeitiger_renteneintritt : Q;
  späterer_renteneintritt : Q
}.

(** The entries of [ges_rente_params] that [rente.py] reads.  The
    table is loaded and checked before any formula runs. *)
Record ges_rente_params : Type := {
  p_rentenwert : ost_west;
  p_rentenwert_vorjahr : ost_west;
  umrechnung_entgeltp_beitrittsgebiet : Q;
  beitragspflichtiges_durchschnittsentgelt : Q;
  zugangsfaktor_veränderung_pro_jahr : zugangsfaktor_veränderung;
  regelaltersgrenze : piecewise_spec;
  altersrente_für_frauen : piecewise_spec
}.

Definition sum_ges_rente_priv_rente_m (priv_rente_m ges_rente_m : Q) : Q :=
  let out := priv_rente_m + ges_rente_m in
  out.

Definition ges_rente_nach_grundr_m
    (ges_rente_vor_grundr_m grundr_zuschlag_m : Q) (rentner : bool) : Q :=
  let out := if rentner then ges_rente_vor_grundr_m + grundr_zuschlag_m else 0 in
  out.

Definition ges_rente_vor_grundr_m
    (ges_rente_zugangsfaktor entgeltp_update rentenwert : Q)
    (rentner : bool) : Q :=
  if rentner then entgeltp_update * ges_rente_zugangsfaktor * rentenwert
  else 0.

Definition rentenwert (wohnort_ost : bool) (params : ges_rente_params) : Q :=
  let params := p_rentenwert params in
  if wohnort_ost then ost params else west params.

Definition rentenwert_vorjahr (wohnort_ost : bool) (params : ges_rente_params) : Q :=
  let params := p_rentenwert_vorjahr params in
  if wohnort_ost then ost params else west params.

Definition entgeltp_update (entgeltp entgeltp_update_lohn : Q) : Q :=
  entgeltp + entgeltp_update_lohn.

Definition entgeltp_update_lohn
    (bruttolohn_m : Q) (wohnort_ost : bool)
    (_ges_rentenv_beitr_bemess_grenze_m : Q)
    (params : ges_rente_params) : Py.result Q :=
  let bruttolohn_scaled_east :=
    if wohnort_ost
    then bruttolohn_m * umrechnung_entgeltp_beitrittsgebiet params
    else bruttolohn_m in
  let bruttolohn_scaled_rentenv :=
    if Py.gt bruttolohn_scaled_east _ges_rentenv_beitr_bemess_grenze_m
    then _ges_rentenv_beitr_bemess_grenze_m
    else bruttolohn_scaled_east in
  let durchschnittslohn_m :=
    (1 / 12) * beitragspflichtiges_durchschnittsentgelt params in
  Py.truediv bruttolohn_scaled_rentenv durchschnittslohn_m.

Definition ges_rente_zugangsfaktor
    (geburtsjahr : Z) (rentner : bool) (jahr_renteneintr : Z)
    (ges_rente_regelaltersgrenze : Q) (params : ges_rente_params) : Q :=
  if rentner then
    let alter_renteneintritt := (jahr_renteneintr - geburtsjahr)%Z in
    let diff := inject_Z alter_renteneintritt - ges_rente_regelaltersgrenze in
    let faktor_pro_jahr_vorzeitig :=
      vorzeitiger_renteneintritt (zugangsfaktor_veränderung_pro_jahr params) in
    let faktor_pro_jahr_später :=
      späterer_renteneintritt (zugangsfaktor_veränderung_pro_jahr params) in
    let out :=
      if Py.lt diff 0
      then 1 + diff * faktor_pro_jahr_vorzeitig
      else 1 + diff * faktor_pro_jahr_später in
    Py.max out 0
  else 0.

(** The access factor in the words of the specification. *)
Definition access_factor_spec (diff early_rate late_rate : Q) : Q :=
  if Qlt_le_dec diff 0
  then Qmax 0 (1 + diff * early_rate)
  else Qmax 0 (1 + diff * late_rate).

Section PiecewisePolynomial.

(** [gettsim.piecewise_functions.piecewise_polynomial] is imported by
    [rente.py]; on a number it returns a number. *)
Variable piecewise_polynomial :
  forall (x : Q) (thresholds rates intercepts_at_lower_thresholds : list Q), Q.

Definition ges_rente_regelaltersgrenze
    (geburtsjahr : Z) (params : ges_rente_params) : Q :=
  piecewise_polynomial (inject_Z geburtsjahr)
    (thresholds (regelaltersgrenze params))
    (rates (regelaltersgrenze params))
    (intercepts_at_lower_thresholds (regelaltersgrenze params)).

Definition ges_rente_grenze_altersrente
    (geburtsjahr geburtsmonat geschlecht : Z)
    (params : ges_rente_params) : Py.py Q :=
  let regelrente :=
    piecewise_polynomial (inject_Z geburtsjahr)
      (thresholds (regelaltersgrenze params))
      (rates (regelaltersgrenze params))
      (intercepts_at_lower_thresholds (regelaltersgrenze params)) in
  let pension_for_women :=
    piecewise_polynomial (inject_Z geburtsjahr + inject_Z geburtsmonat / 12)
      (thresholds (altersrente_für_frauen params))
      (rates (altersrente_für_frauen params))
      (intercepts_at_lower_thresholds (altersrente_für_frauen params)) in
  thresholds_m ← Py.new_list [Py.PyFloat regelrente];
  thresholds_w ← Py.list_extend thresholds_m (Py.PyFloat pension_for_women);
  let thresholds :=
    if (geschlecht =? 0)%Z then thresholds_m else thresholds_w in
  out ← Py.min_iter thresholds;
  Py.ret out.

(** The full eligibility age in the words of the specification:
    the regular age for men, the smaller of the regular age and the
    women's track for women. *)
Definition full_eligibility_age_spec
    (geburtsjahr geburtsmonat geschlecht : Z)
    (params : ges_rente_params) : Q :=
  let regular := ges_rente_regelaltersgrenze geburtsjahr params in
  if (geschlecht =? 0)%Z then regular
  else Qmin regular
         (piecewise_polynomial
            (inject_Z geburtsjahr + inject_Z geburtsmonat / 12)
            (thresholds (altersrente_für_frauen params))
            (rates (altersrente_für_frauen params))
            (intercepts_at_lower_thresholds (altersrente_für_frauen params))).

End PiecewisePolynomial.

End Rente.

(** ** [_gettsim/social_insurance_contributions/beitr_bemess_grenzen.py] *)

Module BeitrBemessGrenzen.

Record beitr_bemess_grenze : Type := {
  ges_rentenv : Rente.ost_west;
  ges_krankenv : Rente.ost_west
}.

(** The entries of [soz_vers_beitr_params] that the three selectors
    read.  [float(out)] turns the number of the table into a float and
    leaves its value. *)
Record soz_vers_beitr_params : Type := {
  beitr_bemess_grenze_m : beitr_bemess_grenze;
  bezugsgröße_selbst_m : Rente.ost_west
}.

Definition _ges_rentenv_beitr_bemess_grenze_m
    (wohnort_ost : bool) (params : soz_vers_beitr_params) : Q :=
  let params := ges_rentenv (beitr_bemess_grenze_m params) in
  let out := if wohnort_ost then Rente.ost params else Rente.west params in
  out.

Definition _ges_krankenv_beitr_bemess_grenze_m
    (wohnort_ost : bool) (params : soz_vers_beitr_params) : Q :=
  let params := ges_krankenv (beitr_bemess_grenze_m params) in
  let out := if wohnort_ost then Rente.ost params else Rente.west params in
  out.

Definition _ges_krankenv_bezugsgröße_selbst_m
    (wohnort_ost : bool) (params : soz_vers_beitr_params) : Q :=
  let out :=
    if wohnort_ost
    then Rente.ost (bezugsgröße_selbst_m params)
    else Rente.west (bezugsgröße_selbst_m params) in
  out.

End BeitrBemessGrenzen.

(** ** [_gettsim/taxes/zu_verst_eink/vorsorgeaufw.py] *)

Module Vorsorgeaufw.

(** The entries of [eink_st_abzuege_params] that the deduction
    formulas read. *)
Record eink_st_abzuege_params : Type := {
  einführungsfaktor_vorsorgeaufw_alter_ab_2005 : Q;
  vorsorge_altersaufw_max : Q;
  vorsorge_sonstige_aufw_max : Q;
  vorsorge_kranken_minderung : Q;
  vorsorge_2004_grundhöchstbetrag : Q;
  vorsorge2004_vorwegabzug : Q;
  vorsorge2004_kürzung_vorwegabzug : Q
}.

Definition vorsorgeaufw_alter_tu
    (ges_rentenv_beitr_m_tu priv_rentenv_beitr_m_tu : Q)
    (anz_erwachsene_tu : Z) (params : eink_st_abzuege_params) : Q :=
  let out :=
    (einführungsfaktor_vorsorgeaufw_alter_ab_2005 params
     * (2 * ges_rentenv_beitr_m_tu + priv_rentenv_beitr_m_tu)
     - ges_rentenv_beitr_m_tu) * 12 in
  let max_value := inject_Z anz_erwachsene_tu * vorsorge_altersaufw_max params in
  let out := Py.min out max_value in
  out.

Definition _vorsorge_alternative_tu_ab_2005_bis_2009
    (vorsorgeaufw_alter_tu ges_krankenv_beitr_m_tu arbeitsl_v_beitr_m_tu
       ges_pflegev_beitr_m_tu : Q)
    (anz_erwachsene_tu : Z) (params : eink_st_abzuege_params) : Q :=
  let sum_vorsorge :=
    12 * (ges_krankenv_beitr_m_tu + arbeitsl_v_beitr_m_tu + ges_pflegev_beitr_m_tu) in
  let max_value := inject_Z anz_erwachsene_tu * vorsorge_sonstige_aufw_max params in
  let sum_vorsorge := Py.min sum_vorsorge max_value in
  let out := sum_vorsorge + vorsorgeaufw_alter_tu in
  out.

Definition vorsorgeaufw_tu_ab_2005_bis_2009
    (_vorsorge_alternative_tu_ab_2005_bis_2009 vorsorgeaufw_tu_bis_2004 : Q) : Q :=
  let out :=
    Py.max vorsorgeaufw_tu_bis_2004 _vorsorge_alternative_tu_ab_2005_bis_2009 in
  out.

Definition vorsorgeaufw_tu_ab_2010_bis_2019
    (vorsorgeaufw_tu_bis_2004 vorsorgeaufw_tu_ab_2020 : Q) : Q :=
  let out := Py.max vorsorgeaufw_tu_bis_2004 vorsorgeaufw_tu_ab_2020 in
  out.

Definition vorsorgeaufw_tu_ab_2020
    (vorsorgeaufw_alter_tu ges_pflegev_beitr_m_tu ges_krankenv_beitr_m_tu
       arbeitsl_v_beitr_m_tu : Q)
    (anz_erwachsene_tu : Z) (params : eink_st_abzuege_params) : Q :=
  let basiskrankenversicherung :=
    12 * (ges_pflegev_beitr_m_tu
          + (1 - vorsorge_kranken_minderung params) * ges_krankenv_beitr_m_tu) in
  let sonst_vors_max :=
    vorsorge_sonstige_aufw_max params * inject_Z anz_erwachsene_tu in
  let sonst_vors_before_basiskrankenv :=
    Py.min
      (12 * (arbeitsl_v_beitr_m_tu + ges_pflegev_beitr_m_tu + ges_krankenv_beitr_m_tu))
      sonst_vors_max in
  let sonst_vors := Py.max basiskrankenversicherung sonst_vors_before_basiskrankenv in
  let out := sonst_vors + vorsorgeaufw_alter_tu in
  out.

(** [1 / anz_erwachsene_tu] raises for a tax unit without adults. *)
Definition vorsorgeaufw_tu_bis_2004
    (_vorsorgeaufw_vom_lohn_tu_bis_2004 ges_krankenv_beitr_m_tu
       ges_rentenv_beitr_m_tu : Q)
    (anz_erwachsene_tu : Z) (params : eink_st_abzuege_params) : Py.result Q :=
  let multiplikator1 :=
    Py.max
      (12 * (ges_rentenv_beitr_m_tu + ges_krankenv_beitr_m_tu)
       - _vorsorgeaufw_vom_lohn_tu_bis_2004)
      0 in
  Py.rbind (Py.truediv 1 (inject_Z anz_erwachsene_tu)) (fun inv_anz =>
  let item_1 := inv_anz * multiplikator1 in
  let multiplikator2 :=
    if Py.gt item_1 (vorsorge_2004_grundhöchstbetrag params)
    then vorsorge_2004_grundhöchstbetrag params
    else item_1 in
  Py.rbind (Py.truediv 1 (inject_Z anz_erwachsene_tu)) (fun inv_anz' =>
  let item_2 := inv_anz' * multiplikator2 in
  let hoechstgrenze_item3 :=
    inject_Z anz_erwachsene_tu * vorsorge_2004_grundhöchstbetrag params in
  let item_3 :=
    if Py.gt (item_1 - item_2) hoechstgrenze_item3
    then (1 # 2) * hoechstgrenze_item3
    else (1 # 2) * (item_1 - item_2) in
  let out := _vorsorgeaufw_vom_lohn_tu_bis_2004 + item_2 + item_3 in
  Py.ok out)).

Definition _vorsorgeaufw_vom_lohn_tu_bis_2004
    (bruttolohn_m_tu : Q) (gemeinsam_veranlagt_tu : bool)
    (params : eink_st_abzuege_params) : Q :=
  let out :=
    if gemeinsam_veranlagt_tu
    then (1 # 2) * (2 * vorsorge2004_vorwegabzug params
                    - vorsorge2004_kürzung_vorwegabzug params * 12 * bruttolohn_m_tu)
    else vorsorge2004_vorwegabzug params
         - vorsorge2004_kürzung_vorwegabzug params * 12 * bruttolohn_m_tu in
  Py.max out 0.

(** The wage-deduction base of a single filer in the words of the
    specification. *)
Definition wage_deduction_base_spec (vorwegabzug kürzung bruttolohn_m_tu : Q) : Q :=
  Qmax (vorwegabzug - kürzung * 12 * bruttolohn_m_tu) 0.

End Vorsorgeaufw.

(** ** Entries of a pandas Series of floats *)

Module XQ.

(** A rational, [inf], [-inf] or [NaN].  Zero carries no sign. *)
Inductive xq : Type :=
| Fin (q : Q)
| PInf
| NInf
| NaN.

Definition of_Z (n : Z) : xq := Fin (inject_Z n).

(** The sign of a rational as a comparison with zero. *)
Definition sgn (q : Q) : comparison := q ?= 0.

Definition neg (a : xq) : xq :=
  match a with
  | Fin q => Fin (- q)
  | PInf => NInf
  | NInf => PInf
  | NaN => NaN
  end.

Definition sub (a b : xq) : xq :=
  match a, b with
  | NaN, _ | _, NaN => NaN
  | Fin x, Fin y => Fin (x - y)
  | Fin _, PInf => NInf
  | Fin _, NInf => PInf
  | PInf, PInf => NaN
  | PInf, _ => PInf
  | NInf, NInf => NaN
  | NInf, _ => NInf
  end.

(** An infinity times a rational: the sign follows the rational and
    [inf * 0] is [NaN]. *)
Definition scale_inf (i : xq) (q : Q) : xq :=
  match sgn q with
  | Gt => i
  | Lt => neg i
  | Eq => NaN
  end.

Definition mul (a b : xq) : xq :=
  match a, b with
  | NaN, _ | _, NaN => NaN
  | Fin x, Fin y => Fin (x * y)
  | Fin x, PInf => scale_inf PInf x
  | Fin x, NInf => scale_inf NInf x
  | PInf, Fin y => scale_inf PInf y
  | NInf, Fin y => scale_inf NInf y
  | PInf, PInf | NInf, NInf => PInf
  | PInf, NInf | NInf, PInf => NInf
  end.

(** Division of Series entries does not raise: [x / 0] is [inf] or
    [-inf] by the sign of [x], and [0 / 0] is [NaN]. *)
Definition div (a b : xq) : xq :=
  match a, b with
  | NaN, _ | _, NaN => NaN
  | Fin x, Fin y =>
      match sgn y with
      | Eq =>
          match sgn x with
          | Gt => PInf
          | Lt => NInf
          | Eq => NaN
          end
      | _ => Fin (x / y)
      end
  | Fin _, (PInf | NInf) => Fin 0
  | PInf, Fin y => match sgn y with Lt => NInf | _ => PInf end
  | NInf, Fin y => match sgn y with Lt => PInf | _ => NInf end
  | (PInf | NInf), (PInf | NInf) => NaN
  end.

(** [a <= b]; every comparison with [NaN] is false. *)
Definition leb (a b : xq) : bool :=
  match a, b with
  | NaN, _ | _, NaN => false
  | NInf, _ => true
  | _, PInf => true
  | Fin x, Fin y => Qle_bool x y
  | PInf, _ => false
  | Fin _, NInf => false
  end.

(** [a < b]. *)
Definition ltb (a b : xq) : bool :=
  match a, b with
  | NaN, _ | _, NaN => false
  | _, _ => negb (leb b a)
  end.

(** [a != b]; [NaN] differs from everything. *)
Definition neb (a b : xq) : bool :=
  match a, b with
  | NaN, _ | _, NaN => true
  | Fin x, Fin y => negb (Qeq_bool x y)
  | PInf, PInf | NInf, NInf => false
  | _, _ => true
  end.

Definition le (a b : xq) : Prop := leb a b = true.
Definition lt (a b : xq) : Prop := ltb a b = true.

Definition is_nan (a : xq) : bool :=
  match a with NaN => true | _ => false end.

Definition is_inf (a : xq) : bool :=
  match a with PInf | NInf => true | _ => false end.

(** A rational entry. *)
Definition finite (a : xq) : Prop := exists q, a = Fin q.

(** What a clamp at zero promises when [NaN] can occur. *)
Definition nan_or_nonneg (a : xq) : Prop := a = NaN \/ le (Fin 0) a.

End XQ.

(** ** pandas Series *)

Module Pandas.

Import XQ.

(** A Series over the index shared by the arguments of one function:
    the entries in index order.  Operations between two Series pair
    the entries of one index label. *)
Abbreviation FloatSeries := (list xq).
Abbreviation BoolSeries := (list bool).
Abbreviation IntSeries := (list Z).

(** [s.clip(lower=lo)] and [s.clip(upper=up)] build a new Series:
    entries on the wrong side of the bound are replaced by the bound,
    [NaN] entries stay [NaN]. *)
Definition clip_lower_entry (lo x : xq) : xq :=
  match x with
  | NaN => NaN
  | _ => if leb lo x then x else lo
  end.

Definition clip_upper_entry (up x : xq) : xq :=
  match x with
  | NaN => NaN
  | _ => if leb x up then x else up
  end.

Definition clip_lower (lo : xq) (s : FloatSeries) : FloatSeries :=
  map (clip_lower_entry lo) s.

Definition clip_upper (up : xq) (s : FloatSeries) : FloatSeries :=
  map (clip_upper_entry up) s.

(** Arithmetic and comparisons between Series, and between a number
    and a Series, entry by entry. *)
Definition series_sub (a b : FloatSeries) : FloatSeries := zip_with sub a b.
Definition series_lt (a b : FloatSeries) : BoolSeries := zip_with ltb a b.
Definition series_ne (a b : FloatSeries) : BoolSeries := zip_with neb a b.
Definition series_or (a b : BoolSeries) : BoolSeries := zip_with orb a b.
Definition series_not (a : BoolSeries) : BoolSeries := map negb a.
Definition scalar_mul (c : Q) (a : FloatSeries) : FloatSeries := map (mul (Fin c)) a.
Definition series_mul_scalar (a : FloatSeries) (c : Q) : FloatSeries :=
  map (fun x => mul x (Fin c)) a.

(** [s.loc[cond] = v] on the entries of [s]: the entries whose label
    is selected by [cond] become [v]. *)
Fixpoint setitem_mask (s : FloatSeries) (cond : BoolSeries) (v : xq) : FloatSeries :=
  match s, cond with
  | x :: s', c :: cond' => (if c then v else x) :: setitem_mask s' cond' v
  | _, _ => s
  end.

(** *** Series objects

    A Series is an object: binding a second name to it does not copy
    it, and [s.loc[cond] = v] changes the object that every such name
    refers to.  The heap holds the Series that a function receives by
    reference or creates. *)

Abbreviation loc := nat.
Abbreviation heap := (list (list xq)).

Definition pd (A : Type) : Type := heap -> A * heap.

Definition ret {A} (a : A) : pd A := fun h => (a, h).
Definition bind {A B} (m : pd A) (k : A -> pd B) : pd B :=
  fun h => let (a, h') := m h in k a h'.

(** The entries of the object at [r]. *)
Definition read (r : loc) : pd FloatSeries :=
  fun h => (default [] (h !! r), h).

(** A new object. *)
Definition alloc (s : FloatSeries) : pd loc :=
  fun h => (length h, h ++ [s]).

(** [r.clip(lower=lo)]: a new object, [r] is left as it is. *)
Definition clip_lower_obj (r : loc) (lo : xq) : pd loc :=
  bind (read r) (fun s => alloc (clip_lower lo s)).

(** [r.loc[cond] = v]: in place. *)
Definition loc_setitem (r : loc) (cond : BoolSeries) (v : xq) : pd unit :=
  fun h => (tt, alter (fun s => setitem_mask s cond v) r h).

(** The entries of the Series that a call returns, read in the heap
    the call leaves behind. *)
Definition returned (m : pd loc) (h : heap) : FloatSeries :=
  let (r, h') := m h in default [] (h' !! r).

(** The heap a call leaves behind. *)
Definition heap_after {A} (m : pd A) (h : heap) : heap := snd (m h).

(** *** Series indexed by a group identifier

    A Series with one entry per tax unit, looked up by the identifier
    of the tax unit. *)
Abbreviation GroupFloatSeries := (gmap Z xq).
Abbreviation GroupIntSeries := (gmap Z Z).

(** [a / b] for a float and an integer Series over group identifiers:
    labels are aligned, a label missing on one side gives [NaN]. *)
Definition group_div (a : GroupFloatSeries) (b : GroupIntSeries) : GroupFloatSeries :=
  merge (fun x y =>
           match x, y with
           | Some x, Some y => Some (div x (of_Z y))
           | None, None => None
           | _, _ => Some NaN
           end) a b.

(** [a / c] for a number [c]. *)
Definition group_div_scalar (a : GroupFloatSeries) (c : Q) : GroupFloatSeries :=
  (fun x => div x (Fin c)) <$> a.

(** [ids.replace(values)]: every identifier that is a label of
    [values] is replaced by the entry at that label; an identifier
    that is no label stays. *)
Definition replace (ids : IntSeries) (values : GroupFloatSeries) : FloatSeries :=
  map (fun id => default (of_Z id) (values !! id)) ids.

(** [s.groupby(by).sum()]: one entry per identifier that occurs in
    [by]; the entry of a group is the sum of the entries of [s] in the
    rows of that identifier.  The sum skips [NaN] entries, and a group
    without any other entry sums to [0].  What the sum of a group that
    holds [inf] or [-inf] is depends on the pandas in use (plain
    addition keeps the infinity, compensated summation gives [NaN] as
    soon as another entry follows), so it is a parameter of the model:
    [sum_with_inf] maps the entries of such a group, in row order, to
    what that pandas returns. *)

(** The sum of the rational entries of a group, in row order. *)
Definition finite_total (xs : list xq) : Q :=
  fold_left (fun acc x => match x with Fin q => acc + q | _ => acc end) xs 0.

(** The entries of the rows of one group, in row order. *)
Definition group_members (k : Z) (rows : list (Z * xq)) : list xq :=
  (filter (fun row => row.1 = k) rows).*2.

Definition groupby_rows_step (acc : gmap Z (list xq)) (row : Z * xq)
  : gmap Z (list xq) :=
  <[row.1 := default [] (acc !! row.1) ++ [row.2]]> acc.

(** The groups: every identifier of [by_] with the entries of its rows. *)
Definition groupby_rows (s : FloatSeries) (by_ : IntSeries) : gmap Z (list xq) :=
  fold_left groupby_rows_step (zip by_ s) ∅.

Section GroupSum.

Variable sum_with_inf : list xq -> xq.

Definition sum_skipna (xs : list xq) : xq :=
  if existsb is_inf xs then sum_with_inf xs else Fin (finite_total xs).

Definition groupby_sum (s : FloatSeries) (by_ : IntSeries) : GroupFloatSeries :=
  sum_skipna <$> groupby_rows s by_.

End GroupSum.

End Pandas.

#[export] Instance pd_mret : MRet Pandas.pd := @Pandas.ret.
#[export] Instance pd_mbind : MBind Pandas.pd := fun A B k m => Pandas.bind m k.

(** ** [gettsim/transfers/grundsicherung.py] *)

Module Grundsicherung.

Import XQ Pandas.

Definition grundsicherung_m_hh
    (grundsicherung_m_minus_eink_hh : loc)
    (wohngeld_vorrang_hh kinderzuschlag_vorrang_hh
       wohngeld_kinderzuschlag_vorrang_hh : BoolSeries)
    (regelaltersgrenze alter anz_erwachsene_hh anz_rentner_hh : FloatSeries)
  : pd loc :=
  out ← clip_lower_obj grundsicherung_m_minus_eink_hh (Fin 0);
  let cond :=
    series_or
      (series_or
         (series_or
            (series_or wohngeld_vorrang_hh kinderzuschlag_vorrang_hh)
            wohngeld_kinderzuschlag_vorrang_hh)
         (series_lt alter regelaltersgrenze))
      (series_ne anz_erwachsene_hh anz_rentner_hh) in
  _ ← loc_setitem out cond (Fin 0);
  mret out.

Definition grundsicherung_m_minus_eink_hh
    (regelbedarf_m_grundsicherung_vermögens_check_hh kindergeld_m_hh
       unterhaltsvors_m_hh grundsicherung_eink_hh : FloatSeries) : FloatSeries :=
  let out :=
    series_sub
      (series_sub
         (series_sub regelbedarf_m_grundsicherung_vermögens_check_hh
            grundsicherung_eink_hh)
         unterhaltsvors_m_hh)
      kindergeld_m_hh in
  out.

Section GroupSum.

(** What the pandas in use returns for the sum of a group that holds an
    infinite entry. *)
Variable sum_with_inf : list xq -> xq.

Definition grundsicherung_eink_hh
    (grundsicherung_eink : FloatSeries) (hh_id : IntSeries) : GroupFloatSeries :=
  groupby_sum sum_with_inf grundsicherung_eink hh_id.

End GroupSum.

Definition grundsicherung_eink
    (arbeitsl_geld_2_brutto_eink : FloatSeries)
    (eink_st_tu : GroupFloatSeries) (tu_id : IntSeries)
    (soli_st_tu : GroupFloatSeries) (anz_erwachsene_tu : GroupIntSeries)
    (sozialv_beitr_m eink_anr_frei_grundsicherung
       freibetrag_grundsicherung_grundrente : FloatSeries) : FloatSeries :=
  clip_lower (Fin 0)
    (series_sub
       (series_sub
          (series_sub
             (series_sub
                (series_sub arbeitsl_geld_2_brutto_eink
                   (replace tu_id
                      (group_div_scalar (group_div eink_st_tu anz_erwachsene_tu) 12)))
                (replace tu_id
                   (group_div_scalar (group_div soli_st_tu anz_erwachsene_tu) 12)))
             sozialv_beitr_m)
          eink_anr_frei_grundsicherung)
       freibetrag_grundsicherung_grundrente).

(** [regelsatz_1] is the entry [arbeitsl_geld_2_params["regelsatz"][1]]
    of the parameter table. *)
Definition eink_anr_frei_grundsicherung
    (bruttolohn_m : FloatSeries) (regelsatz_1 : Q) : FloatSeries :=
  let out :=
    clip_upper (Fin ((1 # 2) * regelsatz_1))
      (series_mul_scalar bruttolohn_m (3 # 10)) in
  out.

(** [out = regelbedarf_m_hh] binds a second name to the argument;
    the assignment through [out.loc] writes into the argument. *)
Definition regelbedarf_m_grundsicherung_vermögens_check_hh
    (regelbedarf_m_hh : loc)
    (unter_vermögens_freibetrag_grundsicherung_hh : BoolSeries) : pd loc :=
  let out := regelbedarf_m_hh in
  _ ← loc_setitem out (series_not unter_vermögens_freibetrag_grundsicherung_hh) (Fin 0);
  mret out.

Definition unter_vermögens_freibetrag_grundsicherung_hh
    (vermögen_hh freibetrag_vermögen_grundsicherung_hh : FloatSeries) : BoolSeries :=
  series_lt vermögen_hh freibetrag_vermögen_grundsicherung_hh.

Definition freibetrag_vermögen_grundsicherung_hh
    (haushaltsgröße_hh : FloatSeries) : FloatSeries :=
  let out := scalar_mul 5000 haushaltsgröße_hh in
  out.

(** The wealth test as the functions are chained by their argument
    names: size to threshold, threshold and wealth to the test, test
    and basic need to the checked basic need. *)
Definition vermögens_check
    (regelbedarf_m_hh : loc) (vermögen_hh haushaltsgröße_hh : FloatSeries) : pd loc :=
  regelbedarf_m_grundsicherung_vermögens_check_hh regelbedarf_m_hh
    (unter_vermögens_freibetrag_grundsicherung_hh vermögen_hh
       (freibetrag_vermögen_grundsicherung_hh haushaltsgröße_hh)).

End Grundsicherung.

(** ** Parameter tables for worked cases *)

Module Beispiel.

(** A pension table with a reduction of 3.6 per cent for each year of
    early and a bonus of 6 per cent for each year of late retirement. *)
Definition ges_rente_params : Rente.ges_rente_params :=
  {| Rente.p_rentenwert := {| Rente.ost := 33; Rente.west := 34 |};
     Rente.p_rentenwert_vorjahr := {| Rente.ost := 32; Rente.west := 33 |};
     Rente.umrechnung_entgeltp_beitrittsgebiet := 11 # 10;
     Rente.beitragspflichtiges_durchschnittsentgelt := 36000;
     Rente.zugangsfaktor_veränderung_pro_jahr :=
       {| Rente.vorzeitiger_renteneintritt := 36 # 1000;
          Rente.späterer_renteneintritt := 6 # 100 |};
     Rente.regelaltersgrenze :=
       {| Rente.thresholds := []; Rente.rates := [];
          Rente.intercepts_at_lower_thresholds := [] |};
     Rente.altersrente_für_frauen :=
       {| Rente.thresholds := []; Rente.rates := [];
          Rente.intercepts_at_lower_thresholds := [] |} |}.

Definition soz_vers_beitr_params : BeitrBemessGrenzen.soz_vers_beitr_params :=
  {| BeitrBemessGrenzen.beitr_bemess_grenze_m :=
       {| BeitrBemessGrenzen.ges_rentenv := {| Rente.ost := 6450; Rente.west := 6900 |};
          BeitrBemessGrenzen.ges_krankenv := {| Rente.ost := 4687; Rente.west := 4687 |} |};
     BeitrBemessGrenzen.bezugsgröße_selbst_m := {| Rente.ost := 3010; Rente.west := 3185 |} |}.

(** A deduction table with a phase-in factor of 60 per cent. *)
Definition eink_st_abzuege_params : Vorsorgeaufw.eink_st_abzuege_params :=
  {| Vorsorgeaufw.einführungsfaktor_vorsorgeaufw_alter_ab_2005 := 6 # 10;
     Vorsorgeaufw.vorsorge_altersaufw_max := 20000;
     Vorsorgeaufw.vorsorge_sonstige_aufw_max := 1500;
     Vorsorgeaufw.vorsorge_kranken_minderung := 4 # 100;
     Vorsorgeaufw.vorsorge_2004_grundhöchstbetrag := 1334;
     Vorsorgeaufw.vorsorge2004_vorwegabzug := 3068;
     Vorsorgeaufw.vorsorge2004_kürzung_vorwegabzug := 16 # 100 |}.

End Beispiel.

(** * Properties *)

(** ** Python comparisons and the builtins [max] and [min] *)

Lemma py_lt_iff (a b : Q) : Py.lt a b = true <-> a < b.
Proof.
  unfold Py.lt. rewrite negb_true_iff, <- not_true_iff_false, Qle_bool_iff.
  split; [apply Qnot_le_lt | apply Qlt_not_le].
Qed.

Lemma py_gt_iff (a b : Q) : Py.gt a b = true <-> b < a.
Proof. apply (py_lt_iff b a). Qed.

Lemma py_max_is_max (a b : Q) : a <= Py.max a b /\ b <= Py.max a b.
Proof. unfold Py.max. split; [apply Q.le_max_l | apply Q.le_max_r]. Qed.

Lemma py_max_floor (a : Q) : 0 <= Py.max a 0.
Proof. apply py_max_is_max. Qed.

Lemma py_min_is_min (a b : Q) : Py.min a b <= a /\ Py.min a b <= b.
Proof. unfold Py.min. split; [apply Q.le_min_l | apply Q.le_min_r]. Qed.

(** ** Pension claims *)

Section RenteProperties.

Import Rente.

Lemma zugangsfaktor_retired geburtsjahr jahr_renteneintr regel params :
  ges_rente_zugangsfaktor geburtsjahr true jahr_renteneintr regel params ==
  access_factor_spec
    (inject_Z (jahr_renteneintr - geburtsjahr) - regel)
    (vorzeitiger_renteneintritt (zugangsfaktor_veränderung_pro_jahr params))
    (späterer_renteneintritt (zugangsfaktor_veränderung_pro_jahr params)).
Proof.
  unfold ges_rente_zugangsfaktor, access_factor_spec, Py.max.
  set (diff := inject_Z (jahr_renteneintr - geburtsjahr) - regel).
  destruct (Qlt_le_dec diff 0) as [Hlt | Hge].
  - apply py_lt_iff in Hlt. rewrite Hlt. apply Q.max_comm.
  - assert (Py.lt diff 0 = false) as ->.
    { apply not_true_iff_false. rewrite py_lt_iff. now apply Qle_not_lt. }
    apply Q.max_comm.
Qed.

Lemma zugangsfaktor_nonneg geburtsjahr rentner jahr_renteneintr regel params :
  0 <= ges_rente_zugangsfaktor geburtsjahr rentner jahr_renteneintr regel params.
Proof.
  unfold ges_rente_zugangsfaktor. destruct rentner.
  - apply py_max_floor.
  - apply Qle_refl.
Qed.

End RenteProperties.

(** C1.  Retirement gate: with [rentner = false] the access factor, the
    base pension claim and the claim including the supplement are each
    exactly [0], whatever the birth year, the retirement year, the
    regular age, the parameters, the earning points, the pension value
    and the supplement are. *)
Theorem C1_retirement_gate :
  forall (geburtsjahr jahr_renteneintr : Z) (regelaltersgrenze : Q)
         (params : Rente.ges_rente_params)
         (zugangsfaktor entgeltp_update rentenwert : Q)
         (ges_rente_vor_grundr_m grundr_zuschlag_m : Q),
    Rente.ges_rente_zugangsfaktor geburtsjahr false jahr_renteneintr
      regelaltersgrenze params = 0
    /\ Rente.ges_rente_vor_grundr_m zugangsfaktor entgeltp_update rentenwert false = 0
    /\ Rente.ges_rente_nach_grundr_m ges_rente_vor_grundr_m grundr_zuschlag_m false = 0.
Proof. intros. repeat split. Qed.

(** C5.  Access factor of a retired person: with
    [diff = (jahr_renteneintr - geburtsjahr) - regelaltersgrenze] it is
    [max(0, 1 + diff * early_rate)] when [diff < 0] and
    [max(0, 1 + diff * late_rate)] otherwise; and for every input,
    retired or not, [ges_rente_zugangsfaktor] is at least [0]. *)
Theorem C5_access_factor_formula_and_floor :
  forall (geburtsjahr jahr_renteneintr : Z) (regelaltersgrenze : Q)
         (params : Rente.ges_rente_params),
    Rente.ges_rente_zugangsfaktor geburtsjahr true jahr_renteneintr
      regelaltersgrenze params ==
    Rente.access_factor_spec
      (inject_Z (jahr_renteneintr - geburtsjahr) - regelaltersgrenze)
      (Rente.vorzeitiger_renteneintritt
         (Rente.zugangsfaktor_veränderung_pro_jahr params))
      (Rente.späterer_renteneintritt
         (Rente.zugangsfaktor_veränderung_pro_jahr params))
    /\ forall rentner : bool,
         0 <= Rente.ges_rente_zugangsfaktor geburtsjahr rentner jahr_renteneintr
                regelaltersgrenze params.
Proof.
  intros. split.
  - apply zugangsfaktor_retired.
  - intros rentner. apply zugangsfaktor_nonneg.
Qed.

(** The source binds [thresholds_w] to what [extend] returns, and calls
    [extend] with a number: the call raises before the sex is looked at. *)
Lemma grenze_altersrente_raises pp geburtsjahr geburtsmonat geschlecht params :
  Py.run (Rente.ges_rente_grenze_altersrente pp geburtsjahr geburtsmonat
            geschlecht params) = Py.raise Py.TypeError.
Proof. reflexivity. Qed.

(** Had [extend] been given a list, it would still return [None]: women
    would get [min(None)], which raises, and men the minimum over the
    list that [extend] has grown in place. *)
Lemma extend_returns_none (x y : Q) :
  Py.run (m ← Py.new_list [Py.PyFloat x];
          w ← Py.new_list [Py.PyFloat y];
          Py.list_extend m w) = Py.ok Py.PyNone.
Proof. reflexivity. Qed.

Lemma extend_grows_in_place (x y : Q) :
  Py.run (m ← Py.new_list [Py.PyFloat x];
          w ← Py.new_list [Py.PyFloat y];
          _ ← Py.list_extend m w;
          Py.min_iter m) = Py.ok (Py.min x y).
Proof. reflexivity. Qed.

(** C2.  The full-eligibility age should be the regular age for men and
    the smaller of the regular age and the women's track for women.
    [ges_rente_grenze_altersrente] returns neither: for a man born in
    1955 and for a woman born in June 1955 alike the call raises
    [TypeError], as it does for every input, so it never returns the
    age of the specification. *)
Theorem C2_grenze_altersrente_raises :
  forall (pp : Q -> list Q -> list Q -> list Q -> Q) (params : Rente.ges_rente_params),
    Py.run (Rente.ges_rente_grenze_altersrente pp 1955 6 0 params)
      = Py.raise Py.TypeError
    /\ Py.run (Rente.ges_rente_grenze_altersrente pp 1955 6 1 params)
      = Py.raise Py.TypeError
    /\ forall geburtsjahr geburtsmonat geschlecht : Z,
         Py.run (Rente.ges_rente_grenze_altersrente pp geburtsjahr geburtsmonat
                   geschlecht params)
         <> Py.ok (Rente.full_eligibility_age_spec pp geburtsjahr geburtsmonat
                     geschlecht params).
Proof.
  intros pp params. split; [| split].
  - apply grenze_altersrente_raises.
  - apply grenze_altersrente_raises.
  - intros gj gm g. rewrite grenze_altersrente_raises. discriminate.
Qed.

(** ** Retirement-savings deductions *)

(** C6.  Regime selection: the 2010-2019 deduction is the maximum of the
    pre-2005 result and the post-2020 result, the 2005-2009 deduction is
    the maximum of the pre-2005 result and the 2005 alternative; each
    selector is at least each of its two arguments. *)
Theorem C6_regime_selection_by_max :
  forall bis_2004 ab_2020 alternative_2005 : Q,
    Vorsorgeaufw.vorsorgeaufw_tu_ab_2010_bis_2019 bis_2004 ab_2020
      = Qmax bis_2004 ab_2020
    /\ Vorsorgeaufw.vorsorgeaufw_tu_ab_2005_bis_2009 alternative_2005 bis_2004
      = Qmax bis_2004 alternative_2005
    /\ bis_2004 <= Vorsorgeaufw.vorsorgeaufw_tu_ab_2010_bis_2019 bis_2004 ab_2020
    /\ ab_2020 <= Vorsorgeaufw.vorsorgeaufw_tu_ab_2010_bis_2019 bis_2004 ab_2020
    /\ bis_2004 <= Vorsorgeaufw.vorsorgeaufw_tu_ab_2005_bis_2009 alternative_2005 bis_2004
    /\ alternative_2005
         <= Vorsorgeaufw.vorsorgeaufw_tu_ab_2005_bis_2009 alternative_2005 bis_2004.
Proof.
  intros a b c.
  unfold Vorsorgeaufw.vorsorgeaufw_tu_ab_2010_bis_2019,
    Vorsorgeaufw.vorsorgeaufw_tu_ab_2005_bis_2009.
  repeat split; apply py_max_is_max.
Qed.

(** C8.  Pre-2005 wage-deduction base of a single filer: it is
    [max(vorwegabzug - kürzung * 12 * bruttolohn_m_tu, 0)]; with
    [vorwegabzug = 3068], [kürzung = 0.16] and [bruttolohn_m_tu = 2000]
    it is exactly [0], whatever the other parameters are. *)
Theorem C8_wage_deduction_base_single :
  (forall (bruttolohn_m_tu : Q) (params : Vorsorgeaufw.eink_st_abzuege_params),
      Vorsorgeaufw._vorsorgeaufw_vom_lohn_tu_bis_2004 bruttolohn_m_tu false params
      = Vorsorgeaufw.wage_deduction_base_spec
          (Vorsorgeaufw.vorsorge2004_vorwegabzug params)
          (Vorsorgeaufw.vorsorge2004_kürzung_vorwegabzug params)
          bruttolohn_m_tu)
  /\ forall faktor alter_max sonstige_max minderung grundhöchstbetrag : Q,
      Vorsorgeaufw._vorsorgeaufw_vom_lohn_tu_bis_2004 2000 false
        {| Vorsorgeaufw.einführungsfaktor_vorsorgeaufw_alter_ab_2005 := faktor;
           Vorsorgeaufw.vorsorge_altersaufw_max := alter_max;
           Vorsorgeaufw.vorsorge_sonstige_aufw_max := sonstige_max;
           Vorsorgeaufw.vorsorge_kranken_minderung := minderung;
           Vorsorgeaufw.vorsorge_2004_grundhöchstbetrag := grundhöchstbetrag;
           Vorsorgeaufw.vorsorge2004_vorwegabzug := 3068;
           Vorsorgeaufw.vorsorge2004_kürzung_vorwegabzug := 16 # 100 |}
      = 0.
Proof.
  split.
  - intros. reflexivity.
  - intros. reflexivity.
Qed.

(** The uncapped amount of [vorsorgeaufw_alter_tu]. *)
Lemma vorsorgeaufw_alter_tu_le_uncapped g p anz params :
  Vorsorgeaufw.vorsorgeaufw_alter_tu g p anz params
  <= (Vorsorgeaufw.einführungsfaktor_vorsorgeaufw_alter_ab_2005 params * (2 * g + p) - g)
     * 12.
Proof. unfold Vorsorgeaufw.vorsorgeaufw_alter_tu. apply py_min_is_min. Qed.

(** C10.  [vorsorgeaufw_alter_tu] is at most
    [anz_erwachsene_tu * vorsorge_altersaufw_max] and has no floor at
    zero: whenever the phase-in factor times (twice the public plus the
    private pension contribution) is below the public pension
    contribution the result is strictly negative, and such inputs
    exist. *)
Theorem C10_alter_capped_above_not_floored :
  (forall (g p : Q) (anz : Z) (params : Vorsorgeaufw.eink_st_abzuege_params),
      Vorsorgeaufw.vorsorgeaufw_alter_tu g p anz params
      <= inject_Z anz * Vorsorgeaufw.vorsorge_altersaufw_max params)
  /\ (forall (g p : Q) (anz : Z) (params : Vorsorgeaufw.eink_st_abzuege_params),
         Vorsorgeaufw.einführungsfaktor_vorsorgeaufw_alter_ab_2005 params * (2 * g + p) < g ->
         Vorsorgeaufw.vorsorgeaufw_alter_tu g p anz params < 0)
  /\ exists (g p : Q) (anz : Z) (params : Vorsorgeaufw.eink_st_abzuege_params),
       Vorsorgeaufw.einführungsfaktor_vorsorgeaufw_alter_ab_2005 params * (2 * g + p) < g
       /\ Vorsorgeaufw.vorsorgeaufw_alter_tu g p anz params < 0.
Proof.
  split; [| split].
  - intros. unfold Vorsorgeaufw.vorsorgeaufw_alter_tu. apply py_min_is_min.
  - intros g p anz params H.
    eapply Qle_lt_trans; [apply vorsorgeaufw_alter_tu_le_uncapped |]. lra.
  - exists 100, 20, 1%Z,
      {| Vorsorgeaufw.einführungsfaktor_vorsorgeaufw_alter_ab_2005 := 4 # 10;
         Vorsorgeaufw.vorsorge_altersaufw_max := 20000;
         Vorsorgeaufw.vorsorge_sonstige_aufw_max := 1500;
         Vorsorgeaufw.vorsorge_kranken_minderung := 4 # 100;
         Vorsorgeaufw.vorsorge_2004_grundhöchstbetrag := 1334;
         Vorsorgeaufw.vorsorge2004_vorwegabzug := 3068;
         Vorsorgeaufw.vorsorge2004_kürzung_vorwegabzug := 16 # 100 |}.
    split; reflexivity.
Qed.

(** At a phase-in factor of 40 per cent, 100 a month of public and 20 a
    month of private pension contributions give a deduction of -144. *)
Lemma C10_alter_negative_witness :
  Vorsorgeaufw.vorsorgeaufw_alter_tu 100 20 1
    {| Vorsorgeaufw.einführungsfaktor_vorsorgeaufw_alter_ab_2005 := 4 # 10;
       Vorsorgeaufw.vorsorge_altersaufw_max := 20000;
       Vorsorgeaufw.vorsorge_sonstige_aufw_max := 1500;
       Vorsorgeaufw.vorsorge_kranken_minderung := 4 # 100;
       Vorsorgeaufw.vorsorge_2004_grundhöchstbetrag := 1334;
       Vorsorgeaufw.vorsorge2004_vorwegabzug := 3068;
       Vorsorgeaufw.vorsorge2004_kürzung_vorwegabzug := 16 # 100 |} < 0.
Proof.
  apply (proj1 (proj2 C10_alter_capped_above_not_floored)).
  reflexivity.
Defined.

(** ** Extended rationals *)

Section XQProperties.

Import XQ.

Lemma ltb_fin (a b : Q) : ltb (Fin a) (Fin b) = true <-> a < b.
Proof. apply py_lt_iff. Qed.

Lemma leb_fin (a b : Q) : leb (Fin a) (Fin b) = true <-> a <= b.
Proof. apply Qle_bool_iff. Qed.

Lemma neb_fin (a b : Q) : neb (Fin a) (Fin b) = true <-> ~ a == b.
Proof.
  simpl. rewrite negb_true_iff, <- not_true_iff_false, Qeq_bool_iff. tauto.
Qed.

(** A threshold that is reached is not undercut. *)
Lemma leb_not_ltb (a b : xq) : leb b a = true -> ltb a b = false.
Proof. destruct a, b; simpl; try congruence; intros ->; reflexivity. Qed.

Lemma mul_fin (a b : Q) : mul (Fin a) (Fin b) = Fin (a * b).
Proof. reflexivity. Qed.

Lemma sub_finite (a b : xq) : finite a -> finite b -> finite (sub a b).
Proof. intros [x ->] [y ->]. eexists; reflexivity. Qed.

Lemma div_finite (a : xq) (y : Q) : finite a -> ~ y == 0 -> finite (div a (Fin y)).
Proof.
  intros [x ->] Hy. simpl. unfold sgn.
  destruct (y ?= 0) eqn:E; try (eexists; reflexivity).
  apply Qeq_alt in E. contradiction.
Qed.

Lemma nan_or_nonneg_zero : nan_or_nonneg (Fin 0).
Proof. right. reflexivity. Qed.

End XQProperties.

(** ** Series *)

Section PandasProperties.

Import XQ Pandas.

(** A clamp at zero leaves [NaN] or something that is not negative. *)
Lemma clip_lower_entry_nan_or_nonneg (x : xq) :
  nan_or_nonneg (clip_lower_entry (Fin 0) x).
Proof.
  unfold nan_or_nonneg, le.
  destruct x as [q | | |]; simpl; auto.
  destruct (Qle_bool 0 q) eqn:E; simpl; auto.
Qed.

Lemma clip_lower_entry_nonneg (x : xq) :
  x <> NaN -> le (Fin 0) (clip_lower_entry (Fin 0) x).
Proof.
  intros Hx. destruct (clip_lower_entry_nan_or_nonneg x) as [H | H]; [| exact H].
  destruct x; simpl in *; try congruence.
  destruct (Qle_bool 0 q); discriminate.
Qed.

Lemma clip_lower_entry_is_nan (x : xq) :
  clip_lower_entry (Fin 0) x = NaN <-> x = NaN.
Proof.
  destruct x; simpl; split; try congruence.
  destruct (Qle_bool 0 q); discriminate.
Qed.

Lemma clip_lower_entry_finite (x : xq) :
  finite x ->
  exists q, clip_lower_entry (Fin 0) x = Fin q /\ 0 <= q.
Proof.
  intros [q ->]. simpl. destruct (Qle_bool 0 q) eqn:E.
  - exists q. split; [reflexivity | now apply Qle_bool_iff].
  - exists 0. split; [reflexivity | apply Qle_refl].
Qed.

Lemma setitem_mask_length s cond v : length (setitem_mask s cond v) = length s.
Proof.
  revert cond. induction s as [| x s IH]; intros [| c cond]; simpl; auto.
Qed.

Lemma setitem_mask_lookup (s : FloatSeries) (cond : BoolSeries) (v : xq)
    (i : nat) (x : xq) (c : bool) :
  s !! i = Some x -> cond !! i = Some c ->
  setitem_mask s cond v !! i = Some (if c then v else x).
Proof.
  revert cond i. induction s as [| y s IH]; intros [| d cond] [| i]; simpl;
    try discriminate.
  - intros [= ->] [= ->]. reflexivity.
  - apply IH.
Qed.

Lemma setitem_mask_Forall (P : xq -> Prop) s cond v :
  Forall P s -> P v -> Forall P (setitem_mask s cond v).
Proof.
  intros Hs Hv. revert cond.
  induction Hs as [| x s Hx Hs IH]; intros [| c cond]; simpl; auto.
  constructor; [destruct c; assumption | apply IH].
Qed.

(** Reading the object that was allocated last. *)
Lemma lookup_alter_alloc (h : heap) (s : FloatSeries) (f : FloatSeries -> FloatSeries) :
  alter f (length h) (h ++ [s]) !! length h = Some (f s).
Proof.
  rewrite list_lookup_alter_eq, list_lookup_middle by reflexivity. reflexivity.
Qed.

(** Writing into the object that was allocated last leaves the older
    objects alone. *)
Lemma take_alter_alloc (h : heap) (s : FloatSeries) (f : FloatSeries -> FloatSeries) :
  take (length h) (alter f (length h) (h ++ [s])) = h.
Proof.
  rewrite take_alter_ge by lia. rewrite take_app_length. reflexivity.
Qed.

End PandasProperties.

(** ** Grundsicherung im Alter *)

Section GrundsicherungProperties.

Import XQ Pandas Grundsicherung.

(** What [grundsicherung_m_hh] returns: the clamped argument with the
    selected entries set to zero. *)
Lemma grundsicherung_m_hh_returned r wv kv wkv regel al ae ar (h : heap) :
  returned (grundsicherung_m_hh r wv kv wkv regel al ae ar) h
  = setitem_mask (clip_lower (Fin 0) (default [] (h !! r)))
      (series_or
         (series_or (series_or (series_or wv kv) wkv) (series_lt al regel))
         (series_ne ae ar))
      (Fin 0).
Proof.
  unfold returned, grundsicherung_m_hh, mbind, pd_mbind, mret, pd_mret,
    Pandas.bind, Pandas.ret, clip_lower_obj, Pandas.bind, read, alloc, loc_setitem.
  rewrite lookup_alter_alloc. reflexivity.
Qed.

(** The objects that existed before the call are as they were. *)
Lemma grundsicherung_m_hh_frame r wv kv wkv regel al ae ar (h : heap) :
  take (length h) (heap_after (grundsicherung_m_hh r wv kv wkv regel al ae ar) h) = h.
Proof.
  unfold heap_after, grundsicherung_m_hh, mbind, pd_mbind, mret, pd_mret,
    Pandas.bind, Pandas.ret, clip_lower_obj, Pandas.bind, read, alloc, loc_setitem.
  simpl. apply take_alter_alloc.
Qed.

(** The selection of one record. *)
Lemma priority_cond_lookup (wv kv wkv : BoolSeries) (regel al ae ar : FloatSeries)
    (i : nat) (b1 b2 b3 : bool) (a g e n : xq) :
  wv !! i = Some b1 -> kv !! i = Some b2 -> wkv !! i = Some b3 ->
  al !! i = Some a -> regel !! i = Some g ->
  ae !! i = Some e -> ar !! i = Some n ->
  series_or
    (series_or (series_or (series_or wv kv) wkv) (series_lt al regel))
    (series_ne ae ar) !! i
  = Some (b1 || b2 || b3 || ltb a g || neb e n).
Proof.
  intros H1 H2 H3 H4 H5 H6 H7.
  unfold series_or, series_lt, series_ne.
  rewrite !lookup_zip_with, H1, H2, H3, H4, H5, H6, H7. reflexivity.
Qed.

(** [regelbedarf_m_grundsicherung_vermögens_check_hh] returns its
    argument, and the argument has been written. *)
Lemma vermögens_check_hh_returns_argument r unter (h : heap) :
  fst (regelbedarf_m_grundsicherung_vermögens_check_hh r unter h) = r.
Proof. reflexivity. Qed.

Lemma vermögens_check_hh_heap r unter (h : heap) :
  heap_after (regelbedarf_m_grundsicherung_vermögens_check_hh r unter) h
  = alter (fun s => setitem_mask s (series_not unter) (Fin 0)) r h.
Proof. reflexivity. Qed.

Lemma vermögens_check_hh_returned r unter (h : heap) (s : FloatSeries) :
  h !! r = Some s ->
  returned (regelbedarf_m_grundsicherung_vermögens_check_hh r unter) h
  = setitem_mask s (series_not unter) (Fin 0).
Proof.
  intros Hr.
  unfold returned, regelbedarf_m_grundsicherung_vermögens_check_hh, mbind,
    pd_mbind, mret, pd_mret, Pandas.bind, Pandas.ret, loc_setitem.
  rewrite list_lookup_alter_eq, Hr. reflexivity.
Qed.

End GrundsicherungProperties.




(** The entry of the checked basic need for one household, in terms of
    the comparison of its wealth with its threshold. *)
Lemma vermögens_check_entry (h : Pandas.heap) (r : Pandas.loc)
    (regel vermögen größe : Pandas.FloatSeries) (i : nat) (b w n : XQ.xq) :
  h !! r = Some regel ->
  regel !! i = Some b -> vermögen !! i = Some w -> größe !! i = Some n ->
  Pandas.returned (Grundsicherung.vermögens_check r vermögen größe) h !! i
  = Some (if XQ.ltb w (XQ.mul (XQ.Fin 5000) n) then b else XQ.Fin 0).
Proof.
  intros Hr Hb Hw Hn. unfold Grundsicherung.vermögens_check.
  rewrite (vermögens_check_hh_returned _ _ _ _ Hr).
  rewrite (setitem_mask_lookup _ _ _ i b
             (negb (XQ.ltb w (XQ.mul (XQ.Fin 5000) n))) Hb).
  - destruct (XQ.ltb w (XQ.mul (XQ.Fin 5000) n)); reflexivity.
  - unfold Pandas.series_not,
      Grundsicherung.unter_vermögens_freibetrag_grundsicherung_hh,
      Grundsicherung.freibetrag_vermögen_grundsicherung_hh,
      Pandas.series_lt, Pandas.scalar_mul.
    rewrite list_lookup_fmap, lookup_zip_with, Hw, list_lookup_fmap, Hn.
    reflexivity.
Qed.

(** C4.  Wealth cliff: the exempt wealth of a household is 5000 times
    its size; the test is passed exactly when the wealth is strictly
    below that threshold, and then the basic need is kept as it is;
    at a wealth equal to or above the threshold the whole basic need is
    set to zero. *)
Theorem C4_wealth_cliff :
  forall (h : Pandas.heap) (regelbedarf : Pandas.loc)
         (regel vermögen größe : Pandas.FloatSeries)
         (i : nat) (b : XQ.xq) (wealth size : Q),
    h !! regelbedarf = Some regel ->
    regel !! i = Some b ->
    vermögen !! i = Some (XQ.Fin wealth) ->
    größe !! i = Some (XQ.Fin size) ->
    Grundsicherung.freibetrag_vermögen_grundsicherung_hh größe !! i
      = Some (XQ.Fin (5000 * size))
    /\ (Grundsicherung.unter_vermögens_freibetrag_grundsicherung_hh vermögen
          (Grundsicherung.freibetrag_vermögen_grundsicherung_hh größe) !! i
        = Some true <-> wealth < 5000 * size)
    /\ (wealth < 5000 * size ->
        Pandas.returned (Grundsicherung.vermögens_check regelbedarf vermögen größe) h !! i
        = Some b)
    /\ (5000 * size <= wealth ->
        Pandas.returned (Grundsicherung.vermögens_check regelbedarf vermögen größe) h !! i
        = Some (XQ.Fin 0)).
Proof.
  intros h r regel vermögen größe i b wealth size Hr Hb Hw Hn.
  assert (Hthr :
    Grundsicherung.freibetrag_vermögen_grundsicherung_hh größe !! i
    = Some (XQ.Fin (5000 * size))).
  { unfold Grundsicherung.freibetrag_vermögen_grundsicherung_hh, Pandas.scalar_mul.
    rewrite list_lookup_fmap, Hn. reflexivity. }
  split; [exact Hthr |]. split; [| split].
  - unfold Grundsicherung.unter_vermögens_freibetrag_grundsicherung_hh, Pandas.series_lt.
    rewrite lookup_zip_with, Hw, Hthr. simpl.
    split.
    + intros [= H]. now apply py_lt_iff.
    + intros H. apply py_lt_iff in H. unfold Py.lt in H. now rewrite H.
  - intros Hlt. rewrite (vermögens_check_entry _ _ _ _ _ _ _ _ _ Hr Hb Hw Hn).
    rewrite mul_fin. apply ltb_fin in Hlt. now rewrite Hlt.
  - intros Hge. rewrite (vermögens_check_entry _ _ _ _ _ _ _ _ _ Hr Hb Hw Hn).
    rewrite mul_fin, leb_not_ltb; [reflexivity |]. now apply leb_fin.
Qed.

(** A household of two with a wealth of exactly 10000 loses its basic
    need of 800. *)
Lemma C4_wealth_cliff_witness :
  Pandas.returned
    (Grundsicherung.vermögens_check 0 [XQ.Fin 10000; XQ.Fin 9000] [XQ.Fin 2; XQ.Fin 2])
    [[XQ.Fin 800; XQ.Fin 800]] !! 0%nat
  = Some (XQ.Fin 0).
Proof.
  apply (proj2 (proj2 (proj2
    (C4_wealth_cliff [[XQ.Fin 800; XQ.Fin 800]] 0 [XQ.Fin 800; XQ.Fin 800]
       [XQ.Fin 10000; XQ.Fin 9000] [XQ.Fin 2; XQ.Fin 2] 0 (XQ.Fin 800) 10000 2
       eq_refl eq_refl eq_refl eq_refl)))).
  discriminate.
Defined.

(** ** Clamping of the income and of the benefit *)

Section Clamping.

Import XQ Pandas Grundsicherung.

Lemma clip_lower_nan_or_nonneg (s : FloatSeries) :
  Forall nan_or_nonneg (clip_lower (Fin 0) s).
Proof.
  unfold clip_lower. induction s as [| x s IH]; simpl; constructor; auto.
  apply clip_lower_entry_nan_or_nonneg.
Qed.

Lemma clip_lower_nonneg (s : FloatSeries) :
  Forall (fun x => x <> NaN) s -> Forall (le (Fin 0)) (clip_lower (Fin 0) s).
Proof.
  unfold clip_lower. induction 1 as [| x s Hx Hs IH]; simpl; constructor; auto.
  now apply clip_lower_entry_nonneg.
Qed.

Lemma clip_lower_finite (s : FloatSeries) :
  Forall finite s ->
  Forall (fun x => exists q, x = Fin q /\ 0 <= q) (clip_lower (Fin 0) s).
Proof.
  unfold clip_lower. induction 1 as [| x s Hx Hs IH]; simpl; constructor; auto.
  now apply clip_lower_entry_finite.
Qed.

Lemma series_sub_finite (a b : FloatSeries) :
  Forall finite a -> Forall finite b -> Forall finite (series_sub a b).
Proof.
  unfold series_sub. intros Ha. revert b.
  induction Ha as [| x a Hx Ha IH]; intros b Hb; simpl; [constructor |].
  destruct Hb as [| y b Hy Hb]; simpl; constructor.
  - now apply sub_finite.
  - now apply IH.
Qed.

(** The quotient of a tax-unit amount by the number of adults is a
    rational when both Series have the same labels and no tax unit is
    without adults. *)
Lemma group_div_finite (a : GroupFloatSeries) (b : GroupIntSeries) :
  map_Forall (fun _ x => finite x) a ->
  map_Forall (fun _ n => n <> 0%Z) b ->
  (forall k, is_Some (a !! k) <-> is_Some (b !! k)) ->
  map_Forall (fun _ x => finite x) (group_div a b).
Proof.
  intros Ha Hb Hdom k v. unfold group_div. rewrite lookup_merge.
  destruct (a !! k) as [x |] eqn:Ea, (b !! k) as [n |] eqn:Eb; simpl.
  - intros [= <-]. apply div_finite; [exact (Ha k x Ea) |].
    intros Hn. apply (Hb k n Eb).
    unfold Qeq in Hn. simpl in Hn. lia.
  - destruct (proj1 (Hdom k)) as [? He]; [rewrite Ea; eauto | rewrite Eb in He; discriminate].
  - destruct (proj2 (Hdom k)) as [? He]; [rewrite Eb; eauto | rewrite Ea in He; discriminate].
  - discriminate.
Qed.

Lemma group_div_scalar_finite (a : GroupFloatSeries) (c : Q) :
  ~ c == 0 ->
  map_Forall (fun _ x => finite x) a ->
  map_Forall (fun _ x => finite x) (group_div_scalar a c).
Proof.
  intros Hc Ha k v. unfold group_div_scalar. rewrite lookup_fmap.
  destruct (a !! k) as [x |] eqn:Ea; simpl; [| discriminate].
  intros [= <-]. apply div_finite; [exact (Ha k x Ea) | exact Hc].
Qed.

Lemma replace_finite (ids : IntSeries) (values : GroupFloatSeries) :
  map_Forall (fun _ x => finite x) values -> Forall finite (replace ids values).
Proof.
  intros Hv. unfold replace. induction ids as [| id ids IH]; simpl; constructor; auto.
  destruct (values !! id) as [x |] eqn:E; simpl.
  - exact (Hv id x E).
  - eexists; reflexivity.
Qed.

Lemma grundsicherung_eink_nan_or_nonneg
    arbeitsl eink_st tu_id soli anz sozialv anr_frei freibetrag :
  Forall nan_or_nonneg
    (grundsicherung_eink arbeitsl eink_st tu_id soli anz sozialv anr_frei freibetrag).
Proof. apply clip_lower_nan_or_nonneg. Qed.

Lemma grundsicherung_m_hh_nan_or_nonneg r wv kv wkv regel al ae ar (h : heap) :
  Forall nan_or_nonneg (returned (grundsicherung_m_hh r wv kv wkv regel al ae ar) h).
Proof.
  rewrite grundsicherung_m_hh_returned.
  apply setitem_mask_Forall; [apply clip_lower_nan_or_nonneg | apply nan_or_nonneg_zero].
Qed.

Lemma grundsicherung_m_hh_nonneg r wv kv wkv regel al ae ar (h : heap) (s : FloatSeries) :
  h !! r = Some s ->
  Forall (fun x => x <> NaN) s ->
  Forall (le (Fin 0)) (returned (grundsicherung_m_hh r wv kv wkv regel al ae ar) h).
Proof.
  intros Hr Hs. rewrite grundsicherung_m_hh_returned, Hr. simpl.
  apply setitem_mask_Forall; [now apply clip_lower_nonneg | reflexivity].
Qed.

Lemma grundsicherung_m_hh_length r wv kv wkv regel al ae ar (h : heap) (s : FloatSeries) :
  h !! r = Some s ->
  length (returned (grundsicherung_m_hh r wv kv wkv regel al ae ar) h) = length s.
Proof.
  intros Hr. rewrite grundsicherung_m_hh_returned, Hr. simpl.
  rewrite setitem_mask_length. unfold clip_lower. apply length_map.
Qed.

Lemma grundsicherung_eink_finite
    arbeitsl eink_st tu_id soli anz sozialv anr_frei freibetrag :
  Forall finite arbeitsl -> Forall finite sozialv ->
  Forall finite anr_frei -> Forall finite freibetrag ->
  map_Forall (fun _ x => finite x) eink_st ->
  map_Forall (fun _ x => finite x) soli ->
  map_Forall (fun _ n => n <> 0%Z) anz ->
  (forall k, is_Some (eink_st !! k) <-> is_Some (anz !! k)) ->
  (forall k, is_Some (soli !! k) <-> is_Some (anz !! k)) ->
  Forall (fun x => exists q, x = Fin q /\ 0 <= q)
    (grundsicherung_eink arbeitsl eink_st tu_id soli anz sozialv anr_frei freibetrag).
Proof.
  intros Ha Hs Hf Hg He Hso Hn Hd1 Hd2. unfold grundsicherung_eink.
  apply clip_lower_finite.
  repeat apply series_sub_finite; try assumption.
  - apply replace_finite, group_div_scalar_finite; [discriminate |].
    now apply group_div_finite.
  - apply replace_finite, group_div_scalar_finite; [discriminate |].
    now apply group_div_finite.
Qed.

End Clamping.

(** C7 as stated fails: a person with a transfer income of 500 whose tax
    unit has an income tax of 0 and no adult.  The share of the tax is
    [0 / 0], which pandas stores as [NaN]; the difference is [NaN], the
    clamp keeps it, and [NaN >= 0] is false. *)
Lemma C7_counterexample_zero_adults :
  Grundsicherung.grundsicherung_eink
    [XQ.Fin 500] {[ 1%Z := XQ.Fin 0 ]} [1%Z] {[ 1%Z := XQ.Fin 0 ]} {[ 1%Z := 0%Z ]}
    [XQ.Fin 0] [XQ.Fin 0] [XQ.Fin 0]
  = [XQ.NaN]
  /\ ~ (forall arbeitsl eink_st tu_id soli anz sozialv anr_frei freibetrag,
          Forall (XQ.le (XQ.Fin 0))
            (Grundsicherung.grundsicherung_eink arbeitsl eink_st tu_id soli anz
               sozialv anr_frei freibetrag)).
Proof.
  assert (E :
    Grundsicherung.grundsicherung_eink
      [XQ.Fin 500] {[ 1%Z := XQ.Fin 0 ]} [1%Z] {[ 1%Z := XQ.Fin 0 ]} {[ 1%Z := 0%Z ]}
      [XQ.Fin 0] [XQ.Fin 0] [XQ.Fin 0]
    = [XQ.NaN]) by (vm_compute; reflexivity).
  split; [exact E |].
  intros H.
  specialize (H [XQ.Fin 500] {[ 1%Z := XQ.Fin 0 ]} [1%Z] {[ 1%Z := XQ.Fin 0 ]}
                {[ 1%Z := 0%Z ]} [XQ.Fin 0] [XQ.Fin 0] [XQ.Fin 0]).
  rewrite E in H. inversion H as [| ? ? Hle _]. discriminate Hle.
Qed.

(** C7, amended.  Neither [grundsicherung_eink] nor
    [grundsicherung_m_hh] raises, and neither returns a negative entry:
    every entry is at least [0] or is [NaN], and [grundsicherung_m_hh]
    returns one entry per record.  The entries of [grundsicherung_m_hh]
    are at least [0] when its argument holds no [NaN]; the entries of
    [grundsicherung_eink] are rationals that are at least [0] when all
    amounts are rationals, the tax-unit Series have the same labels and
    every tax unit has a non-zero number of adults. *)
Theorem C7_clamped_never_negative :
  (forall arbeitsl eink_st tu_id soli anz sozialv anr_frei freibetrag,
      Forall XQ.nan_or_nonneg
        (Grundsicherung.grundsicherung_eink arbeitsl eink_st tu_id soli anz
           sozialv anr_frei freibetrag))
  /\ (forall r wv kv wkv regel al ae ar (h : Pandas.heap),
         Forall XQ.nan_or_nonneg
           (Pandas.returned
              (Grundsicherung.grundsicherung_m_hh r wv kv wkv regel al ae ar) h))
  /\ (forall r wv kv wkv regel al ae ar (h : Pandas.heap) (s : Pandas.FloatSeries),
         h !! r = Some s ->
         length (Pandas.returned
                   (Grundsicherung.grundsicherung_m_hh r wv kv wkv regel al ae ar) h)
         = length s
         /\ (Forall (fun x => x <> XQ.NaN) s ->
             Forall (XQ.le (XQ.Fin 0))
               (Pandas.returned
                  (Grundsicherung.grundsicherung_m_hh r wv kv wkv regel al ae ar) h)))
  /\ (forall arbeitsl eink_st tu_id soli anz sozialv anr_frei freibetrag,
         Forall XQ.finite arbeitsl -> Forall XQ.finite sozialv ->
         Forall XQ.finite anr_frei -> Forall XQ.finite freibetrag ->
         map_Forall (fun _ x => XQ.finite x) eink_st ->
         map_Forall (fun _ x => XQ.finite x) soli ->
         map_Forall (fun _ n => n <> 0%Z) anz ->
         (forall k : Z, is_Some (eink_st !! k) <-> is_Some (anz !! k)) ->
         (forall k : Z, is_Some (soli !! k) <-> is_Some (anz !! k)) ->
         Forall (fun x => exists q, x = XQ.Fin q /\ 0 <= q)
           (Grundsicherung.grundsicherung_eink arbeitsl eink_st tu_id soli anz
              sozialv anr_frei freibetrag)).
Proof.
  split; [| split; [| split]].
  - apply grundsicherung_eink_nan_or_nonneg.
  - apply grundsicherung_m_hh_nan_or_nonneg.
  - intros r wv kv wkv regel al ae ar h s Hr. split.
    + now apply grundsicherung_m_hh_length.
    + now apply grundsicherung_m_hh_nonneg.
  - apply grundsicherung_eink_finite.
Qed.

(** Two pensioners in one tax unit with two adults, an income tax of
    1200 and a surcharge of 60 a year: the first has 900 - 50 - 2.5 -
    100 - 30 - 20 left, the second is clamped from below zero to 0. *)
Lemma C7_clamped_never_negative_witness :
  Forall (fun x => exists q, x = XQ.Fin q /\ 0 <= q)
    (Grundsicherung.grundsicherung_eink
       [XQ.Fin 900; XQ.Fin 30] {[ 1%Z := XQ.Fin 1200 ]} [1%Z; 1%Z]
       {[ 1%Z := XQ.Fin 60 ]} {[ 1%Z := 2%Z ]}
       [XQ.Fin 100; XQ.Fin 0] [XQ.Fin 30; XQ.Fin 9] [XQ.Fin 20; XQ.Fin 0])
  /\ Forall (XQ.le (XQ.Fin 0))
       (Pandas.returned
          (Grundsicherung.grundsicherung_m_hh 0 [false] [false] [false]
             [XQ.Fin 65] [XQ.Fin 70] [XQ.Fin 1] [XQ.Fin 1])
          [[XQ.Fin (-120)]]).
Proof.
  split.
  - apply (proj2 (proj2 (proj2 C7_clamped_never_negative))).
    + repeat constructor; eexists; reflexivity.
    + repeat constructor; eexists; reflexivity.
    + repeat constructor; eexists; reflexivity.
    + repeat constructor; eexists; reflexivity.
    + apply map_Forall_singleton. eexists; reflexivity.
    + apply map_Forall_singleton. eexists; reflexivity.
    + apply map_Forall_singleton. discriminate.
    + intros k. rewrite !lookup_singleton_is_Some. reflexivity.
    + intros k. rewrite !lookup_singleton_is_Some. reflexivity.
  - apply (proj2 (proj1 (proj2 (proj2 C7_clamped_never_negative))
                    0%nat [false] [false] [false] [XQ.Fin 65] [XQ.Fin 70]
                    [XQ.Fin 1] [XQ.Fin 1] [[XQ.Fin (-120)]] [XQ.Fin (-120)]
                    eq_refl)).
    repeat constructor; discriminate.
Defined.

(** ** Ownership of the arguments *)

(** C9.  No operation should change a Series it is given.
    [grundsicherung_m_hh] leaves every object it found as it was, but
    [regelbedarf_m_grundsicherung_vermögens_check_hh] returns the very
    object it was given and has written into it: for a household of two
    with a wealth of 10000 the basic need of 800 that the caller passed
    in reads 0 after the call. *)
Theorem C9_check_overwrites_its_argument :
  Pandas.heap_after
    (Grundsicherung.vermögens_check 0 [XQ.Fin 10000] [XQ.Fin 2]) [[XQ.Fin 800]]
  = [[XQ.Fin 0]]
  /\ Pandas.heap_after
       (Grundsicherung.regelbedarf_m_grundsicherung_vermögens_check_hh 0 [false])
       [[XQ.Fin 800]]
     <> [[XQ.Fin 800]]
  /\ (forall (r : Pandas.loc) (unter : Pandas.BoolSeries) (h : Pandas.heap),
         fst (Grundsicherung.regelbedarf_m_grundsicherung_vermögens_check_hh r unter h) = r
         /\ Pandas.heap_after
              (Grundsicherung.regelbedarf_m_grundsicherung_vermögens_check_hh r unter) h
            = alter (fun s => Pandas.setitem_mask s (Pandas.series_not unter) (XQ.Fin 0)) r h)
  /\ (forall r wv kv wkv regel al ae ar (h : Pandas.heap),
         take (length h)
           (Pandas.heap_after
              (Grundsicherung.grundsicherung_m_hh r wv kv wkv regel al ae ar) h)
         = h).
Proof.
  split; [reflexivity |]. split; [discriminate |]. split.
  - intros r unter h. split; reflexivity.
  - apply grundsicherung_m_hh_frame.
Qed.

(** * Further properties of the formulas *)

(** ** Access factor and pension claim *)

Section RenteFurther.

Import Rente.

(** The wage that counts for earning points: the smaller of the
    (scaled) wage and the contribution ceiling. *)
Lemma capped_wage_le (w g : Q) : (if Py.gt w g then g else w) <= g.
Proof.
  destruct (Py.gt w g) eqn:E; [apply Qle_refl |].
  apply not_true_iff_false in E. rewrite py_gt_iff in E. now apply Qnot_lt_le.
Qed.

Lemma capped_wage_mono (w1 w2 g : Q) :
  w1 <= w2 -> (if Py.gt w1 g then g else w1) <= (if Py.gt w2 g then g else w2).
Proof.
  intros H. destruct (Py.gt w2 g) eqn:E2.
  - apply capped_wage_le.
  - destruct (Py.gt w1 g) eqn:E1; [| exact H].
    apply py_gt_iff in E1. apply not_true_iff_false in E2. rewrite py_gt_iff in E2.
    apply Qnot_lt_le in E2. lra.
Qed.

Lemma truediv_zero (a b : Q) : b == 0 -> Py.truediv a b = Py.raise Py.ZeroDivisionError.
Proof. intros H. unfold Py.truediv. apply Qeq_bool_iff in H. now rewrite H. Qed.

Lemma truediv_nonzero (a b : Q) : ~ b == 0 -> Py.truediv a b = Py.ok (a / b).
Proof.
  intros H. unfold Py.truediv. destruct (Qeq_bool b 0) eqn:E; [| reflexivity].
  apply Qeq_bool_iff in E. contradiction.
Qed.

Lemma twelfth (a : Q) : (1 / 12) * a == (1 # 12) * a.
Proof. change (1 / 12) with (1 * (1 # 12)). ring. Qed.

Lemma mult_le_compat_l (x y z : Q) : 0 <= z -> x <= y -> z * x <= z * y.
Proof.
  intros Hz H. rewrite (Qmult_comm z x), (Qmult_comm z y).
  now apply Qmult_le_compat_r.
Qed.

Lemma div_le_compat (a b d : Q) : 0 < d -> a <= b -> a / d <= b / d.
Proof.
  intros Hd H. unfold Qdiv. apply Qmult_le_compat_r; [exact H |].
  apply Qlt_le_weak, Qinv_lt_0_compat, Hd.
Qed.

Lemma diff_mono (gj j1 j2 : Z) (regel : Q) :
  (j1 <= j2)%Z -> inject_Z (j1 - gj) - regel <= inject_Z (j2 - gj) - regel.
Proof.
  intros H. assert (inject_Z (j1 - gj) <= inject_Z (j2 - gj)).
  { rewrite <- Zle_Qle. lia. }
  lra.
Qed.

Lemma access_factor_spec_mono (d1 d2 e l : Q) :
  0 <= e -> 0 <= l -> d1 <= d2 ->
  access_factor_spec d1 e l <= access_factor_spec d2 e l.
Proof.
  intros He Hl Hd. unfold access_factor_spec.
  destruct (Qlt_le_dec d1 0) as [H1 | H1], (Qlt_le_dec d2 0) as [H2 | H2];
    apply Q.max_le_compat_l.
  - assert (d1 * e <= d2 * e) by (apply Qmult_le_compat_r; assumption). lra.
  - assert (d1 * e <= 0 * e) by (apply Qmult_le_compat_r; lra).
    assert (0 * l <= d2 * l) by (apply Qmult_le_compat_r; assumption). lra.
  - lra.
  - assert (d1 * l <= d2 * l) by (apply Qmult_le_compat_r; assumption). lra.
Qed.

End RenteFurther.

(** X1.  A person who retires exactly at the regular age has an access
    factor of 1, whatever the two rates are, and the pension claim is
    then earning points times pension value. *)
Theorem X1_full_claim_at_regular_age :
  forall (geburtsjahr jahr_renteneintr : Z) (regelaltersgrenze : Q)
         (params : Rente.ges_rente_params) (entgeltp rentenwert : Q),
    inject_Z (jahr_renteneintr - geburtsjahr) == regelaltersgrenze ->
    Rente.ges_rente_zugangsfaktor geburtsjahr true jahr_renteneintr
      regelaltersgrenze params == 1
    /\ Rente.ges_rente_vor_grundr_m
         (Rente.ges_rente_zugangsfaktor geburtsjahr true jahr_renteneintr
            regelaltersgrenze params)
         entgeltp rentenwert true
       == entgeltp * rentenwert.
Proof.
  intros gj jr regel params ep rw H.
  assert (Hz : Rente.ges_rente_zugangsfaktor gj true jr regel params == 1).
  { rewrite zugangsfaktor_retired. unfold Rente.access_factor_spec.
    set (d := inject_Z (jr - gj) - regel).
    assert (Hd : d == 0) by (unfold d; lra).
    destruct (Qlt_le_dec d 0) as [Hlt | _]; [lra |].
    rewrite Q.max_r.
    - rewrite Hd. ring.
    - rewrite Hd. ring_simplify. discriminate. }
  split; [exact Hz |].
  unfold Rente.ges_rente_vor_grundr_m. rewrite Hz. ring.
Qed.

Lemma X1_full_claim_at_regular_age_witness :
  Rente.ges_rente_zugangsfaktor 1955 true 2020 65
    {| Rente.p_rentenwert := {| Rente.ost := 33; Rente.west := 34 |};
       Rente.p_rentenwert_vorjahr := {| Rente.ost := 32; Rente.west := 33 |};
       Rente.umrechnung_entgeltp_beitrittsgebiet := 11 # 10;
       Rente.beitragspflichtiges_durchschnittsentgelt := 40000;
       Rente.zugangsfaktor_veränderung_pro_jahr :=
         {| Rente.vorzeitiger_renteneintritt := 36 # 1000;
            Rente.späterer_renteneintritt := 6 # 100 |};
       Rente.regelaltersgrenze :=
         {| Rente.thresholds := []; Rente.rates := [];
            Rente.intercepts_at_lower_thresholds := [] |};
       Rente.altersrente_für_frauen :=
         {| Rente.thresholds := []; Rente.rates := [];
            Rente.intercepts_at_lower_thresholds := [] |} |} == 1.
Proof.
  apply (X1_full_claim_at_regular_age 1955 2020 65 _ 40 34).
  reflexivity.
Defined.

(** X2.  With rates that are not negative the access factor does not
    fall when retirement is later: it is non-decreasing in the year of
    retirement, at most 1 before the regular age and at least 1 from
    the regular age on. *)
Theorem X2_access_factor_monotone :
  forall (geburtsjahr jahr1 jahr2 : Z) (rentner : bool) (regelaltersgrenze : Q)
         (params : Rente.ges_rente_params),
    0 <= Rente.vorzeitiger_renteneintritt
           (Rente.zugangsfaktor_veränderung_pro_jahr params) ->
    0 <= Rente.späterer_renteneintritt
           (Rente.zugangsfaktor_veränderung_pro_jahr params) ->
    (jahr1 <= jahr2)%Z ->
    Rente.ges_rente_zugangsfaktor geburtsjahr rentner jahr1 regelaltersgrenze params
    <= Rente.ges_rente_zugangsfaktor geburtsjahr rentner jahr2 regelaltersgrenze params
    /\ (inject_Z (jahr1 - geburtsjahr) < regelaltersgrenze ->
        Rente.ges_rente_zugangsfaktor geburtsjahr rentner jahr1 regelaltersgrenze params
        <= 1)
    /\ (regelaltersgrenze <= inject_Z (jahr2 - geburtsjahr) ->
        1 <= Rente.ges_rente_zugangsfaktor geburtsjahr true jahr2 regelaltersgrenze params).
Proof.
  intros gj j1 j2 rentner regel params He Hl Hj.
  split; [| split].
  - destruct rentner; [| apply Qle_refl].
    rewrite !zugangsfaktor_retired.
    apply access_factor_spec_mono; auto. now apply diff_mono.
  - intros Hlt. destruct rentner; [| discriminate].
    rewrite zugangsfaktor_retired. unfold Rente.access_factor_spec.
    set (d := inject_Z (j1 - gj) - regel).
    assert (Hd : d < 0) by (unfold d; lra).
    destruct (Qlt_le_dec d 0) as [_ | Hge]; [| lra].
    apply Q.max_lub; [discriminate |].
    assert (d * Rente.vorzeitiger_renteneintritt
                  (Rente.zugangsfaktor_veränderung_pro_jahr params)
            <= 0 * Rente.vorzeitiger_renteneintritt
                     (Rente.zugangsfaktor_veränderung_pro_jahr params))
      by (apply Qmult_le_compat_r; lra).
    lra.
  - intros Hge. rewrite zugangsfaktor_retired. unfold Rente.access_factor_spec.
    set (d := inject_Z (j2 - gj) - regel).
    assert (Hd : 0 <= d) by (unfold d; lra).
    destruct (Qlt_le_dec d 0) as [Hlt | _]; [lra |].
    eapply Qle_trans; [| apply Q.le_max_r].
    assert (0 * Rente.späterer_renteneintritt
                  (Rente.zugangsfaktor_veränderung_pro_jahr params)
            <= d * Rente.späterer_renteneintritt
                     (Rente.zugangsfaktor_veränderung_pro_jahr params))
      by (apply Qmult_le_compat_r; assumption).
    lra.
Qed.

(** Born in 1955 with a regular age of 65.6: retiring in 2022 instead
    of 2018 does not lower the factor, and in 2018 it is at most 1. *)
Lemma X2_access_factor_monotone_witness :
  Rente.ges_rente_zugangsfaktor 1955 true 2018 (656 # 10) Beispiel.ges_rente_params
  <= Rente.ges_rente_zugangsfaktor 1955 true 2022 (656 # 10) Beispiel.ges_rente_params
  /\ Rente.ges_rente_zugangsfaktor 1955 true 2018 (656 # 10) Beispiel.ges_rente_params
     <= 1
  /\ 1 <= Rente.ges_rente_zugangsfaktor 1955 true 2022 (656 # 10)
            Beispiel.ges_rente_params.
Proof.
  destruct (X2_access_factor_monotone 1955 2018 2022 true (656 # 10)
              Beispiel.ges_rente_params) as (H1 & H2 & H3);
    [discriminate | discriminate | discriminate |].
  split; [exact H1 |]. split; [apply H2; reflexivity | apply H3; discriminate].
Defined.

(** X3.  With earning points, pension value and supplement that are not
    negative, the pension claim computed from the access factor is not
    negative and the claim including the supplement is not below it,
    retired or not. *)
Theorem X3_pension_claim_nonneg :
  forall (geburtsjahr jahr_renteneintr : Z) (rentner : bool) (regelaltersgrenze : Q)
         (params : Rente.ges_rente_params) (entgeltp rentenwert grundr_zuschlag_m : Q),
    0 <= entgeltp -> 0 <= rentenwert -> 0 <= grundr_zuschlag_m ->
    let vor :=
      Rente.ges_rente_vor_grundr_m
        (Rente.ges_rente_zugangsfaktor geburtsjahr rentner jahr_renteneintr
           regelaltersgrenze params)
        entgeltp rentenwert rentner in
    0 <= vor /\ vor <= Rente.ges_rente_nach_grundr_m vor grundr_zuschlag_m rentner.
Proof.
  intros gj jr rentner regel params ep rw z Hep Hrw Hz vor. subst vor.
  pose proof (zugangsfaktor_nonneg gj rentner jr regel params) as Hzf.
  unfold Rente.ges_rente_vor_grundr_m, Rente.ges_rente_nach_grundr_m.
  destruct rentner.
  - assert (0 <= ep * Rente.ges_rente_zugangsfaktor gj true jr regel params)
      by (apply Qmult_le_0_compat; assumption).
    assert (0 <= ep * Rente.ges_rente_zugangsfaktor gj true jr regel params * rw)
      by (apply Qmult_le_0_compat; assumption).
    split; lra.
  - split; apply Qle_refl.
Qed.

Lemma X3_pension_claim_nonneg_witness :
  0 <= Rente.ges_rente_vor_grundr_m
         (Rente.ges_rente_zugangsfaktor 1955 true 2018 (656 # 10)
            Beispiel.ges_rente_params)
         40 34 true.
Proof.
  apply (X3_pension_claim_nonneg 1955 2018 true (656 # 10)
           Beispiel.ges_rente_params 40 34 50); discriminate.
Defined.

(** X4.  [entgeltp_update_lohn] raises [ZeroDivisionError] whenever the
    average wage of the table is zero, whatever the wage, the region
    and the ceiling are; and it returns a number whenever the average
    wage is at least 1. *)
Theorem X4_entgeltp_update_lohn_error :
  forall (bruttolohn_m : Q) (wohnort_ost : bool) (grenze : Q)
         (params : Rente.ges_rente_params),
    (Rente.beitragspflichtiges_durchschnittsentgelt params == 0 ->
     Rente.entgeltp_update_lohn bruttolohn_m wohnort_ost grenze params
     = Py.raise Py.ZeroDivisionError)
    /\ (1 <= Rente.beitragspflichtiges_durchschnittsentgelt params ->
        exists points,
          Rente.entgeltp_update_lohn bruttolohn_m wohnort_ost grenze params
          = Py.ok points).
Proof.
  intros l ost g params. unfold Rente.entgeltp_update_lohn.
  set (w := if Py.gt _ g then g else _).
  set (avg := Rente.beitragspflichtiges_durchschnittsentgelt params).
  split.
  - intros H. apply truediv_zero. rewrite twelfth. lra.
  - intros H. eexists. apply truediv_nonzero. rewrite twelfth. lra.
Qed.

Lemma X4_entgeltp_update_lohn_error_witness :
  Rente.entgeltp_update_lohn 3000 false 6900
    {| Rente.p_rentenwert := {| Rente.ost := 33; Rente.west := 34 |};
       Rente.p_rentenwert_vorjahr := {| Rente.ost := 32; Rente.west := 33 |};
       Rente.umrechnung_entgeltp_beitrittsgebiet := 11 # 10;
       Rente.beitragspflichtiges_durchschnittsentgelt := 0;
       Rente.zugangsfaktor_veränderung_pro_jahr :=
         {| Rente.vorzeitiger_renteneintritt := 36 # 1000;
            Rente.späterer_renteneintritt := 6 # 100 |};
       Rente.regelaltersgrenze :=
         {| Rente.thresholds := []; Rente.rates := [];
            Rente.intercepts_at_lower_thresholds := [] |};
       Rente.altersrente_für_frauen :=
         {| Rente.thresholds := []; Rente.rates := [];
            Rente.intercepts_at_lower_thresholds := [] |} |}
  = Py.raise Py.ZeroDivisionError
  /\ exists points,
       Rente.entgeltp_update_lohn 3000 false 6900 Beispiel.ges_rente_params
       = Py.ok points.
Proof.
  split.
  - apply (proj1 (X4_entgeltp_update_lohn_error 3000 false 6900 _)).
    reflexivity.
  - apply (proj2 (X4_entgeltp_update_lohn_error 3000 false 6900
                    Beispiel.ges_rente_params)).
    discriminate.
Defined.

(** X5.  With a positive average wage the earning points of a year are
    capped: they never exceed the contribution ceiling of the region
    divided by a twelfth of the average wage, however high the wage is;
    and with a conversion factor that is not negative a higher wage
    never gives fewer points. *)
Theorem X5_entgeltp_update_lohn_capped :
  forall (lohn1 lohn2 : Q) (wohnort_ost : bool)
         (sv_params : BeitrBemessGrenzen.soz_vers_beitr_params)
         (params : Rente.ges_rente_params),
    0 < Rente.beitragspflichtiges_durchschnittsentgelt params ->
    0 <= Rente.umrechnung_entgeltp_beitrittsgebiet params ->
    lohn1 <= lohn2 ->
    let grenze :=
      BeitrBemessGrenzen._ges_rentenv_beitr_bemess_grenze_m wohnort_ost sv_params in
    exists p1 p2,
      Rente.entgeltp_update_lohn lohn1 wohnort_ost grenze params = Py.ok p1
      /\ Rente.entgeltp_update_lohn lohn2 wohnort_ost grenze params = Py.ok p2
      /\ p1 <= p2
      /\ p2 <= grenze
               / ((1 / 12) * Rente.beitragspflichtiges_durchschnittsentgelt params).
Proof.
  intros l1 l2 ost sv params Havg Hum Hl grenze.
  unfold Rente.entgeltp_update_lohn.
  set (avg := Rente.beitragspflichtiges_durchschnittsentgelt params) in *.
  assert (Hd : 0 < (1 / 12) * avg) by (rewrite twelfth; lra).
  assert (Hnz : ~ (1 / 12) * avg == 0) by (rewrite twelfth; lra).
  rewrite !(truediv_nonzero _ _ Hnz).
  eexists _, _. split; [reflexivity |]. split; [reflexivity |]. split.
  - apply div_le_compat; [exact Hd |]. apply capped_wage_mono.
    destruct ost; [| exact Hl].
    apply Qmult_le_compat_r; assumption.
  - apply div_le_compat; [exact Hd |]. apply capped_wage_le.
Qed.

(** In the East a wage of 8000 earns no more points than the ceiling of
    6450 allows, and no fewer than a wage of 3000. *)
Lemma X5_entgeltp_update_lohn_capped_witness :
  exists p1 p2,
    Rente.entgeltp_update_lohn 3000 true
      (BeitrBemessGrenzen._ges_rentenv_beitr_bemess_grenze_m true
         Beispiel.soz_vers_beitr_params) Beispiel.ges_rente_params = Py.ok p1
    /\ Rente.entgeltp_update_lohn 8000 true
         (BeitrBemessGrenzen._ges_rentenv_beitr_bemess_grenze_m true
            Beispiel.soz_vers_beitr_params) Beispiel.ges_rente_params = Py.ok p2
    /\ p1 <= p2
    /\ p2 <= BeitrBemessGrenzen._ges_rentenv_beitr_bemess_grenze_m true
               Beispiel.soz_vers_beitr_params
             / ((1 / 12)
                * Rente.beitragspflichtiges_durchschnittsentgelt
                    Beispiel.ges_rente_params).
Proof.
  apply (X5_entgeltp_update_lohn_capped 3000 8000 true
           Beispiel.soz_vers_beitr_params Beispiel.ges_rente_params);
    [reflexivity | discriminate | discriminate].
Defined.

(** ** Deduction regimes *)

Section VorsorgeFurther.

Import Vorsorgeaufw.

Lemma py_max_zero_compat (x y : Q) : x == y -> Py.max x 0 == Py.max y 0.
Proof.
  intros H. unfold Py.max.
  destruct (Q.max_spec x 0) as [[? ->] | [? ->]],
           (Q.max_spec y 0) as [[? ->] | [? ->]]; lra.
Qed.

Lemma py_min_comm_eq (x y c : Q) : x == y -> Py.min x c == Py.min y c.
Proof.
  intros H. unfold Py.min.
  destruct (Q.min_spec x c) as [[? ->] | [? ->]],
           (Q.min_spec y c) as [[? ->] | [? ->]]; lra.
Qed.

(** The reciprocal of a count of at least one adult. *)
Lemma inv_count (anz : Z) :
  (1 <= anz)%Z ->
  0 < 1 / inject_Z anz /\ 1 / inject_Z anz <= 1
  /\ (1 / inject_Z anz) * inject_Z anz == 1.
Proof.
  intros H. assert (Ha : 1 <= inject_Z anz) by (rewrite Zle_Qle in H; exact H).
  assert (Hpos : 0 < inject_Z anz) by lra.
  assert (Hinv : 0 < / inject_Z anz) by now apply Qinv_lt_0_compat.
  assert (Hone : (1 / inject_Z anz) * inject_Z anz == 1) by (field; lra).
  assert (Heq : 1 / inject_Z anz == / inject_Z anz) by (unfold Qdiv; ring).
  split; [lra |]. split; [| exact Hone].
  assert ((1 / inject_Z anz) * 1 <= (1 / inject_Z anz) * inject_Z anz)
    by (apply Qmult_le_l; lra).
  lra.
Qed.

(** The three terms of the pre-2005 formula. *)
Lemma bis_2004_terms (vom_lohn kranken renten : Q) (anz : Z)
    (params : eink_st_abzuege_params) :
  (1 <= anz)%Z ->
  exists item_1 item_2 item_3,
    vorsorgeaufw_tu_bis_2004 vom_lohn kranken renten anz params
    = Py.ok (vom_lohn + item_2 + item_3)
    /\ 0 <= item_1
    /\ item_1 <= Py.max (12 * (renten + kranken) - vom_lohn) 0
    /\ item_2 <= item_1
    /\ (0 <= vorsorge_2004_grundhöchstbetrag params ->
        0 <= item_2
        /\ item_2 <= (1 / inject_Z anz) * vorsorge_2004_grundhöchstbetrag params
        /\ 0 <= item_3
        /\ item_3 <= (1 # 2) * (inject_Z anz * vorsorge_2004_grundhöchstbetrag params))
    /\ item_3 <= (1 # 2) * (item_1 - item_2).
Proof.
  intros Hanz. destruct (inv_count anz Hanz) as (Hpos & Hle1 & Hone).
  assert (Ha : 1 <= inject_Z anz) by (rewrite Zle_Qle in Hanz; exact Hanz).
  unfold vorsorgeaufw_tu_bis_2004.
  rewrite truediv_nonzero by lra. cbn [Py.rbind Py.ok].
  set (inv := 1 / inject_Z anz) in *.
  set (G := vorsorge_2004_grundhöchstbetrag params).
  set (m1 := Py.max (12 * (renten + kranken) - vom_lohn) 0).
  set (item_1 := inv * m1).
  set (m2 := if Py.gt item_1 G then G else item_1).
  set (item_2 := inv * m2).
  set (H3 := inject_Z anz * G).
  set (item_3 := if Py.gt (item_1 - item_2) H3
                 then (1 # 2) * H3 else (1 # 2) * (item_1 - item_2)).
  exists item_1, item_2, item_3.
  assert (Hm1 : 0 <= m1) by apply py_max_floor.
  assert (Hi1 : 0 <= item_1) by (apply Qmult_le_0_compat; lra).
  assert (Hm2G : m2 <= G) by apply capped_wage_le.
  assert (Hm2i : m2 <= item_1).
  { unfold m2. destruct (Py.gt item_1 G) eqn:E; [| apply Qle_refl].
    apply py_gt_iff in E. lra. }
  assert (Hi2m : 0 <= m2 -> item_2 <= m2).
  { intros Hm2. assert (inv * m2 <= 1 * m2) by (apply Qmult_le_compat_r; lra).
    unfold item_2. lra. }
  assert (Hi2 : item_2 <= item_1).
  { destruct (Qlt_le_dec m2 0) as [Hneg | Hnn].
    - assert (inv * m2 <= inv * 0) by (apply Qmult_le_l; lra).
      unfold item_2. lra.
    - specialize (Hi2m Hnn). lra. }
  assert (Hi3 : item_3 <= (1 # 2) * (item_1 - item_2)).
  { unfold item_3. destruct (Py.gt (item_1 - item_2) H3) eqn:E; [| apply Qle_refl].
    apply py_gt_iff in E. lra. }
  assert (Hi1m : item_1 <= m1).
  { assert (inv * m1 <= 1 * m1) by (apply Qmult_le_compat_r; lra).
    unfold item_1. lra. }
  split; [reflexivity |]. split; [exact Hi1 |]. split; [exact Hi1m |].
  split; [exact Hi2 |]. split; [| exact Hi3].
  intros HG.
  assert (Hm2 : 0 <= m2).
  { unfold m2. destruct (Py.gt item_1 G); assumption. }
  assert (H0i2 : 0 <= item_2) by (apply Qmult_le_0_compat; lra).
  assert (Hi2G : item_2 <= inv * G) by (apply Qmult_le_l; lra).
  assert (HH3 : 0 <= H3) by (apply Qmult_le_0_compat; lra).
  split; [exact H0i2 |]. split; [exact Hi2G |].
  unfold item_3. destruct (Py.gt (item_1 - item_2) H3) eqn:E.
  - split; lra.
  - apply not_true_iff_false in E. rewrite py_gt_iff in E. apply Qnot_lt_le in E.
    split; lra.
Qed.

End VorsorgeFurther.

(** X6.  Joint filers get the wage-deduction base of a single filer
    with half their wage: the halving of the joint branch is the single
    formula at half the wage. *)
Theorem X6_joint_base_is_single_at_half_wage :
  forall (bruttolohn_m_tu : Q) (params : Vorsorgeaufw.eink_st_abzuege_params),
    Vorsorgeaufw._vorsorgeaufw_vom_lohn_tu_bis_2004 bruttolohn_m_tu true params
    == Vorsorgeaufw._vorsorgeaufw_vom_lohn_tu_bis_2004
         ((1 # 2) * bruttolohn_m_tu) false params.
Proof.
  intros L params. unfold Vorsorgeaufw._vorsorgeaufw_vom_lohn_tu_bis_2004.
  apply py_max_zero_compat. ring.
Qed.

(** X7.  The wage-deduction base is never negative, and with a reduction
    rate that is not negative it does not rise with the wage, for single
    and for joint filers. *)
Theorem X7_wage_base_falls_with_wage :
  forall (lohn1 lohn2 : Q) (gemeinsam_veranlagt_tu : bool)
         (params : Vorsorgeaufw.eink_st_abzuege_params),
    0 <= Vorsorgeaufw.vorsorge2004_kürzung_vorwegabzug params ->
    lohn1 <= lohn2 ->
    0 <= Vorsorgeaufw._vorsorgeaufw_vom_lohn_tu_bis_2004 lohn2
           gemeinsam_veranlagt_tu params
    /\ Vorsorgeaufw._vorsorgeaufw_vom_lohn_tu_bis_2004 lohn2
         gemeinsam_veranlagt_tu params
       <= Vorsorgeaufw._vorsorgeaufw_vom_lohn_tu_bis_2004 lohn1
            gemeinsam_veranlagt_tu params.
Proof.
  intros l1 l2 g params Hk Hl.
  unfold Vorsorgeaufw._vorsorgeaufw_vom_lohn_tu_bis_2004.
  split; [apply py_max_floor |].
  set (k := Vorsorgeaufw.vorsorge2004_kürzung_vorwegabzug params) in *.
  assert (Hkl : k * 12 * l1 <= k * 12 * l2).
  { apply mult_le_compat_l; [| exact Hl].
    apply Qmult_le_0_compat; [exact Hk | discriminate]. }
  unfold Py.max. apply Q.max_le_compat_r. destruct g; lra.
Qed.

Lemma X7_wage_base_falls_with_wage_witness :
  Vorsorgeaufw._vorsorgeaufw_vom_lohn_tu_bis_2004 1500 false
    Beispiel.eink_st_abzuege_params
  <= Vorsorgeaufw._vorsorgeaufw_vom_lohn_tu_bis_2004 1000 false
       Beispiel.eink_st_abzuege_params.
Proof.
  apply (X7_wage_base_falls_with_wage 1000 1500 false
           Beispiel.eink_st_abzuege_params); discriminate.
Defined.

(** X8.  [vorsorgeaufw_tu_bis_2004] raises [ZeroDivisionError] exactly
    for a tax unit without adults; for every other count it returns an
    amount. *)
Theorem X8_bis_2004_raises_without_adults :
  forall (vom_lohn kranken renten : Q) (anz_erwachsene_tu : Z)
         (params : Vorsorgeaufw.eink_st_abzuege_params),
    (anz_erwachsene_tu = 0%Z <->
     Vorsorgeaufw.vorsorgeaufw_tu_bis_2004 vom_lohn kranken renten
       anz_erwachsene_tu params = Py.raise Py.ZeroDivisionError)
    /\ (anz_erwachsene_tu <> 0%Z ->
        exists out,
          Vorsorgeaufw.vorsorgeaufw_tu_bis_2004 vom_lohn kranken renten
            anz_erwachsene_tu params = Py.ok out).
Proof.
  intros v k r anz params.
  assert (Hnz : anz <> 0%Z -> ~ inject_Z anz == 0).
  { intros Hn H. apply Hn. unfold Qeq in H. simpl in H. lia. }
  assert (Hok : anz <> 0%Z ->
                exists out,
                  Vorsorgeaufw.vorsorgeaufw_tu_bis_2004 v k r anz params = Py.ok out).
  { intros Hn. unfold Vorsorgeaufw.vorsorgeaufw_tu_bis_2004.
    rewrite (truediv_nonzero _ _ (Hnz Hn)). cbn [Py.rbind Py.ok].
    eexists. reflexivity. }
  split; [split |]; [| | exact Hok].
  - intros ->. reflexivity.
  - intros H. destruct (Z.eq_dec anz 0%Z) as [E | E]; [exact E |].
    destruct (Hok E) as [out Ho]. rewrite Ho in H. discriminate.
Qed.

Lemma X8_bis_2004_raises_without_adults_witness :
  exists out,
    Vorsorgeaufw.vorsorgeaufw_tu_bis_2004 0 300 400 2 Beispiel.eink_st_abzuege_params
    = Py.ok out.
Proof.
  apply (proj2 (X8_bis_2004_raises_without_adults 0 300 400 2
                  Beispiel.eink_st_abzuege_params)).
  discriminate.
Defined.

(** X9.  For a tax unit with at least one adult and a basic ceiling that
    is not negative, the pre-2005 deduction lies between the
    wage-deduction base and that base plus the basic ceiling per adult
    plus half the basic ceiling of all adults. *)
Theorem X9_bis_2004_bounds :
  forall (vom_lohn kranken renten : Q) (anz_erwachsene_tu : Z)
         (params : Vorsorgeaufw.eink_st_abzuege_params),
    (1 <= anz_erwachsene_tu)%Z ->
    0 <= Vorsorgeaufw.vorsorge_2004_grundhöchstbetrag params ->
    exists out,
      Vorsorgeaufw.vorsorgeaufw_tu_bis_2004 vom_lohn kranken renten
        anz_erwachsene_tu params = Py.ok out
      /\ vom_lohn <= out
      /\ out <= vom_lohn
                + (1 / inject_Z anz_erwachsene_tu)
                  * Vorsorgeaufw.vorsorge_2004_grundhöchstbetrag params
                + (1 # 2)
                  * (inject_Z anz_erwachsene_tu
                     * Vorsorgeaufw.vorsorge_2004_grundhöchstbetrag params).
Proof.
  intros v k r anz params Hanz HG.
  destruct (bis_2004_terms v k r anz params Hanz)
    as (i1 & i2 & i3 & Heq & _ & _ & _ & Hb & _).
  destruct (Hb HG) as (H2 & H2G & H3 & H3G).
  exists (v + i2 + i3). split; [exact Heq |]. split; lra.
Qed.

(** Two adults with 400 and 300 a month of pension and health
    contributions: 2001, between 0 and 0 + 667 + 1334. *)
Lemma X9_bis_2004_bounds_witness :
  exists out,
    Vorsorgeaufw.vorsorgeaufw_tu_bis_2004 0 300 400 2 Beispiel.eink_st_abzuege_params
    = Py.ok out
    /\ 0 <= out
    /\ out <= 0 + (1 / inject_Z 2) * 1334 + (1 # 2) * (inject_Z 2 * 1334).
Proof.
  apply (X9_bis_2004_bounds 0 300 400 2 Beispiel.eink_st_abzuege_params);
    discriminate.
Defined.

(** X10.  The pre-2005 deduction of a wage earner is never negative:
    for a tax unit with at least one adult and a basic ceiling that is
    not negative, the formula applied to the wage-deduction base
    returns an amount of at least that base, which is at least 0; so
    the 2005-2009 and the 2010-2019 deduction are not negative either. *)
Theorem X10_pre_2005_chain_nonneg :
  forall (bruttolohn_m_tu kranken renten : Q) (gemeinsam_veranlagt_tu : bool)
         (anz_erwachsene_tu : Z) (params : Vorsorgeaufw.eink_st_abzuege_params),
    (1 <= anz_erwachsene_tu)%Z ->
    0 <= Vorsorgeaufw.vorsorge_2004_grundhöchstbetrag params ->
    exists bis_2004,
      Vorsorgeaufw.vorsorgeaufw_tu_bis_2004
        (Vorsorgeaufw._vorsorgeaufw_vom_lohn_tu_bis_2004 bruttolohn_m_tu
           gemeinsam_veranlagt_tu params)
        kranken renten anz_erwachsene_tu params = Py.ok bis_2004
      /\ 0 <= bis_2004
      /\ (forall alternative : Q,
             0 <= Vorsorgeaufw.vorsorgeaufw_tu_ab_2005_bis_2009 alternative bis_2004)
      /\ (forall ab_2020 : Q,
             0 <= Vorsorgeaufw.vorsorgeaufw_tu_ab_2010_bis_2019 bis_2004 ab_2020).
Proof.
  intros L k r g anz params Hanz HG.
  set (v := Vorsorgeaufw._vorsorgeaufw_vom_lohn_tu_bis_2004 L g params).
  assert (Hv : 0 <= v) by apply py_max_floor.
  destruct (bis_2004_terms v k r anz params Hanz)
    as (i1 & i2 & i3 & Heq & _ & _ & _ & Hb & _).
  destruct (Hb HG) as (H2 & _ & H3 & _).
  exists (v + i2 + i3). split; [exact Heq |].
  assert (Hout : 0 <= v + i2 + i3) by lra.
  split; [exact Hout |]. split; intros x.
  - eapply Qle_trans; [exact Hout |].
    unfold Vorsorgeaufw.vorsorgeaufw_tu_ab_2005_bis_2009. apply py_max_is_max.
  - eapply Qle_trans; [exact Hout |].
    unfold Vorsorgeaufw.vorsorgeaufw_tu_ab_2010_bis_2019. apply py_max_is_max.
Qed.

Lemma X10_pre_2005_chain_nonneg_witness :
  exists bis_2004,
    Vorsorgeaufw.vorsorgeaufw_tu_bis_2004
      (Vorsorgeaufw._vorsorgeaufw_vom_lohn_tu_bis_2004 1000 false
         Beispiel.eink_st_abzuege_params)
      100 200 1 Beispiel.eink_st_abzuege_params = Py.ok bis_2004
    /\ 0 <= bis_2004.
Proof.
  destruct (X10_pre_2005_chain_nonneg 1000 100 200 false 1
              Beispiel.eink_st_abzuege_params) as (d & Hd & Hnn & _);
    [discriminate | discriminate |].
  exists d. split; assumption.
Defined.

(** X11.  The basic health and care contributions can always be
    deducted: the post-2020 deduction is at least twelve times the care
    contribution plus the reduced health contribution, plus the pension
    part, even where the ceiling for other contributions is lower. *)
Theorem X11_ab_2020_at_least_basiskrankenversicherung :
  forall (alter pflege kranken arbeitsl : Q) (anz_erwachsene_tu : Z)
         (params : Vorsorgeaufw.eink_st_abzuege_params),
    12 * (pflege + (1 - Vorsorgeaufw.vorsorge_kranken_minderung params) * kranken)
    + alter
    <= Vorsorgeaufw.vorsorgeaufw_tu_ab_2020 alter pflege kranken arbeitsl
         anz_erwachsene_tu params.
Proof.
  intros alter pf kr al anz params. unfold Vorsorgeaufw.vorsorgeaufw_tu_ab_2020.
  match goal with
  | |- _ <= Py.max ?a ?b + _ => pose proof (proj1 (py_max_is_max a b))
  end.
  lra.
Qed.

(** X13.  Both parts of the 2005 alternative are capped per adult: with
    the pension part computed by [vorsorgeaufw_alter_tu] it is at most
    the ceiling for other contributions of all adults plus the ceiling
    for pension contributions of all adults. *)
Theorem X13_alternative_2005_capped :
  forall (renten priv kranken arbeitsl pflege : Q) (anz_erwachsene_tu : Z)
         (params : Vorsorgeaufw.eink_st_abzuege_params),
    Vorsorgeaufw._vorsorge_alternative_tu_ab_2005_bis_2009
      (Vorsorgeaufw.vorsorgeaufw_alter_tu renten priv anz_erwachsene_tu params)
      kranken arbeitsl pflege anz_erwachsene_tu params
    <= inject_Z anz_erwachsene_tu * Vorsorgeaufw.vorsorge_sonstige_aufw_max params
       + inject_Z anz_erwachsene_tu * Vorsorgeaufw.vorsorge_altersaufw_max params.
Proof.
  intros r p k a pf anz params.
  unfold Vorsorgeaufw._vorsorge_alternative_tu_ab_2005_bis_2009,
    Vorsorgeaufw.vorsorgeaufw_alter_tu.
  match goal with
  | |- Py.min ?s ?c + Py.min ?o ?m <= _ =>
      pose proof (proj2 (py_min_is_min s c));
      pose proof (proj2 (py_min_is_min o m))
  end.
  lra.
Qed.

(** X14.  From a phase-in factor of one half on, contributions that are
    not negative never give a negative pension deduction (as long as
    the ceiling is not negative), and a higher private contribution
    never lowers it. *)
Theorem X14_alter_nonneg_from_half :
  forall (renten priv1 priv2 : Q) (anz_erwachsene_tu : Z)
         (params : Vorsorgeaufw.eink_st_abzuege_params),
    1 # 2 <= Vorsorgeaufw.einführungsfaktor_vorsorgeaufw_alter_ab_2005 params ->
    0 <= renten -> 0 <= priv1 -> priv1 <= priv2 ->
    0 <= inject_Z anz_erwachsene_tu * Vorsorgeaufw.vorsorge_altersaufw_max params ->
    0 <= Vorsorgeaufw.vorsorgeaufw_alter_tu renten priv1 anz_erwachsene_tu params
    /\ Vorsorgeaufw.vorsorgeaufw_alter_tu renten priv1 anz_erwachsene_tu params
       <= Vorsorgeaufw.vorsorgeaufw_alter_tu renten priv2 anz_erwachsene_tu params.
Proof.
  intros r p1 p2 anz params Hf Hr Hp Hpp Hcap.
  unfold Vorsorgeaufw.vorsorgeaufw_alter_tu, Py.min.
  set (f := Vorsorgeaufw.einführungsfaktor_vorsorgeaufw_alter_ab_2005 params) in *.
  assert (H1 : (1 # 2) * (2 * r + p1) <= f * (2 * r + p1))
    by (apply Qmult_le_compat_r; lra).
  assert (H2 : f * (2 * r + p1) <= f * (2 * r + p2))
    by (apply mult_le_compat_l; lra).
  split.
  - apply Q.min_glb; lra.
  - apply Q.min_le_compat_r. lra.
Qed.

Lemma X14_alter_nonneg_from_half_witness :
  0 <= Vorsorgeaufw.vorsorgeaufw_alter_tu 100 20 1 Beispiel.eink_st_abzuege_params.
Proof.
  apply (X14_alter_nonneg_from_half 100 20 50 1 Beispiel.eink_st_abzuege_params);
    discriminate.
Defined.

(** ** Household sums *)

Section GroupSums.

Import XQ Pandas Grundsicherung.

Lemma group_members_cons (k : Z) (row : Z * xq) (rows : list (Z * xq)) :
  group_members k (row :: rows)
  = if decide (row.1 = k) then row.2 :: group_members k rows
    else group_members k rows.
Proof.
  unfold group_members. rewrite filter_cons. destruct (decide (row.1 = k)); reflexivity.
Qed.

Lemma group_members_Forall (P : xq -> Prop) (k : Z) (ids : list Z) (s : list xq) :
  Forall P s -> Forall P (group_members k (zip ids s)).
Proof.
  intros Hs. revert ids.
  induction Hs as [| x s Hx Hs IH]; intros [| id ids]; simpl; try constructor.
  rewrite group_members_cons. simpl.
  destruct (decide (id = k)); [constructor; [exact Hx |] |]; apply IH.
Qed.

Lemma group_members_nonempty (k : Z) (rows : list (Z * xq)) :
  group_members k rows <> [] <-> k ∈ rows.*1.
Proof.
  induction rows as [| row rows IH].
  - split; [intros H; now contradict H | intros H; inversion H].
  - rewrite group_members_cons, fmap_cons, elem_of_cons.
    destruct (decide (row.1 = k)) as [E | E].
    + split; [intros _; left; now symmetry | intros _; discriminate].
    + rewrite IH. split; [intros H; now right | intros [H | H]; [congruence | exact H]].
Qed.

(** The entries collected for a group after the rows have been added to
    [acc]: the rows of the group, in row order, behind what [acc] held. *)
Lemma groupby_rows_fold_lookup (rows : list (Z * xq)) (acc : gmap Z (list xq)) (k : Z) :
  fold_left groupby_rows_step rows acc !! k
  = match group_members k rows with
    | [] => acc !! k
    | _ :: _ => Some (default [] (acc !! k) ++ group_members k rows)
    end.
Proof.
  revert acc. induction rows as [| row rows IH]; intros acc; [reflexivity |].
  cbn [fold_left]. rewrite IH, group_members_cons.
  destruct (decide (row.1 = k)) as [E | E].
  - subst k. unfold groupby_rows_step. rewrite lookup_insert_eq. simpl.
    destruct (group_members row.1 rows); [reflexivity |].
    now rewrite <- app_assoc.
  - unfold groupby_rows_step. rewrite lookup_insert_ne by exact E. reflexivity.
Qed.

Lemma groupby_sum_lookup (sum_with_inf : list xq -> xq)
    (s : list xq) (ids : list Z) (k : Z) :
  groupby_sum sum_with_inf s ids !! k
  = match group_members k (zip ids s) with
    | [] => None
    | _ :: _ => Some (sum_skipna sum_with_inf (group_members k (zip ids s)))
    end.
Proof.
  unfold groupby_sum, groupby_rows.
  rewrite lookup_fmap, groupby_rows_fold_lookup, lookup_empty.
  destruct (group_members k (zip ids s)); reflexivity.
Qed.

(** Without an infinite entry the sum is the total of the rational
    entries, whatever the pandas in use does with infinities. *)
Lemma sum_skipna_without_inf (sum_with_inf : list xq -> xq) (xs : list xq) :
  Forall (fun x => is_inf x = false) xs ->
  sum_skipna sum_with_inf xs = Fin (finite_total xs).
Proof.
  intros H. unfold sum_skipna.
  assert (existsb is_inf xs = false) as ->; [| reflexivity].
  induction H as [| x xs Hx _ IH]; simpl; [reflexivity |].
  now rewrite Hx, IH.
Qed.

Lemma finite_total_fold_nonneg (xs : list xq) (acc : Q) :
  0 <= acc ->
  Forall (fun x => x = NaN \/ exists q, x = Fin q /\ 0 <= q) xs ->
  0 <= fold_left (fun a x => match x with Fin q => a + q | _ => a end) xs acc.
Proof.
  intros Hacc H. revert acc Hacc.
  induction H as [| x xs Hx _ IH]; intros acc Hacc; simpl; [exact Hacc |].
  apply IH. destruct Hx as [-> | (q & -> & Hq)]; [exact Hacc | lra].
Qed.

(** A clamped income that is not [inf] is [NaN] or a rational that is
    not negative. *)
Lemma nan_or_nonneg_not_inf (x : xq) :
  nan_or_nonneg x -> x <> PInf ->
  is_inf x = false /\ (x = NaN \/ exists q, x = Fin q /\ 0 <= q).
Proof.
  intros [-> | Hx] Hp; [split; [reflexivity | now left] |].
  destruct x as [q | | |]; try discriminate; try contradiction.
  split; [reflexivity |]. right. exists q. split; [reflexivity |].
  now apply leb_fin.
Qed.

End GroupSums.

(** X15.  [groupby(...).sum()] as used for the household income: a
    household has an entry exactly when its identifier occurs among the
    rows; and when none of its rows holds an infinite entry, the entry
    is the total of the rational entries of exactly the rows of that
    household, the [NaN] entries being skipped, whatever the pandas in
    use returns for groups with infinite entries. *)
Theorem X15_household_sum_is_sum_over_members :
  forall (sum_with_inf : list XQ.xq -> XQ.xq)
         (grundsicherung_eink : Pandas.FloatSeries) (hh_id : Pandas.IntSeries) (k : Z),
    (is_Some (Grundsicherung.grundsicherung_eink_hh sum_with_inf
                grundsicherung_eink hh_id !! k)
     <-> k ∈ (zip hh_id grundsicherung_eink).*1)
    /\ (k ∈ (zip hh_id grundsicherung_eink).*1 ->
        Forall (fun x => XQ.is_inf x = false)
          (Pandas.group_members k (zip hh_id grundsicherung_eink)) ->
        Grundsicherung.grundsicherung_eink_hh sum_with_inf
          grundsicherung_eink hh_id !! k
        = Some (XQ.Fin
                  (Pandas.finite_total
                     (Pandas.group_members k (zip hh_id grundsicherung_eink))))).
Proof.
  intros sw s ids k. unfold Grundsicherung.grundsicherung_eink_hh.
  rewrite groupby_sum_lookup, <- group_members_nonempty.
  destruct (Pandas.group_members k (zip ids s)) eqn:E.
  - split; [split |]; [intros [? H]; discriminate | congruence | congruence].
  - split; [split |]; [discriminate | eauto |].
    intros _ Hfin. now rewrite (sum_skipna_without_inf _ _ Hfin).
Qed.

(** Three persons in the households 7, 8 and 7: household 7 has
    0 + 100 + 30, the [NaN] of the person in household 8 is skipped. *)
Lemma X15_household_sum_is_sum_over_members_witness :
  Grundsicherung.grundsicherung_eink_hh (fun _ => XQ.NaN)
    [XQ.Fin 100; XQ.NaN; XQ.Fin 30] [7%Z; 8%Z; 7%Z] !! 7%Z
  = Some (XQ.Fin (0 + 100 + 30))
  /\ Grundsicherung.grundsicherung_eink_hh (fun _ => XQ.NaN)
       [XQ.Fin 100; XQ.NaN; XQ.Fin 30] [7%Z; 8%Z; 7%Z] !! 8%Z
     = Some (XQ.Fin 0).
Proof.
  split.
  - apply (proj2 (X15_household_sum_is_sum_over_members (fun _ => XQ.NaN)
                    [XQ.Fin 100; XQ.NaN; XQ.Fin 30] [7%Z; 8%Z; 7%Z] 7%Z)).
    + apply list_elem_of_In. simpl. auto.
    + repeat constructor.
  - apply (proj2 (X15_household_sum_is_sum_over_members (fun _ => XQ.NaN)
                    [XQ.Fin 100; XQ.NaN; XQ.Fin 30] [7%Z; 8%Z; 7%Z] 8%Z)).
    + apply list_elem_of_In. simpl. auto.
    + repeat constructor.
Defined.

(** X16.  A [NaN] income does not reach the household income: for a
    household none of whose members has an income of [inf], the sum
    that [grundsicherung_eink_hh] forms from the result of
    [grundsicherung_eink] is a rational that is not negative, whatever
    the inputs of [grundsicherung_eink] are and whatever the pandas in
    use returns for groups with infinite entries. *)
Theorem X16_household_income_nonneg :
  forall (sum_with_inf : list XQ.xq -> XQ.xq)
         arbeitsl eink_st tu_id soli anz sozialv anr_frei freibetrag
         (hh_id : Pandas.IntSeries) (k : Z) (v : XQ.xq),
    Grundsicherung.grundsicherung_eink_hh sum_with_inf
      (Grundsicherung.grundsicherung_eink arbeitsl eink_st tu_id soli anz
         sozialv anr_frei freibetrag)
      hh_id !! k = Some v ->
    Forall (fun x => x <> XQ.PInf)
      (Pandas.group_members k
         (zip hh_id
            (Grundsicherung.grundsicherung_eink arbeitsl eink_st tu_id soli anz
               sozialv anr_frei freibetrag))) ->
    exists q, v = XQ.Fin q /\ 0 <= q.
Proof.
  intros sw a e t so n sv af fb hh k v.
  unfold Grundsicherung.grundsicherung_eink_hh. rewrite groupby_sum_lookup.
  set (s := Grundsicherung.grundsicherung_eink a e t so n sv af fb).
  destruct (Pandas.group_members k (zip hh s)) eqn:E; [discriminate |].
  rewrite <- E. intros [= <-] Hinf.
  assert (Hall : Forall (fun x => XQ.is_inf x = false
                                  /\ (x = XQ.NaN \/ exists q, x = XQ.Fin q /\ 0 <= q))
                   (Pandas.group_members k (zip hh s))).
  { pose proof (group_members_Forall XQ.nan_or_nonneg k hh s
                  (grundsicherung_eink_nan_or_nonneg a e t so n sv af fb)) as Hnn.
    fold s in Hnn. revert Hnn Hinf.
    generalize (Pandas.group_members k (zip hh s)).
    induction 1 as [| y ys Hy _ IH]; intros Hp; constructor.
    - apply nan_or_nonneg_not_inf; [exact Hy | now inversion Hp].
    - apply IH. now inversion Hp. }
  rewrite sum_skipna_without_inf.
  - eexists. split; [reflexivity |].
    apply finite_total_fold_nonneg; [apply Qle_refl |].
    eapply Forall_impl; [exact Hall |]. intros y [_ H]. exact H.
  - eapply Forall_impl; [exact Hall |]. intros y [H _]. exact H.
Qed.

(** Two persons of household 5: the first is in a tax unit without
    adults and with no income tax, so the income is [NaN]; the second
    has 100.  The household income is 0 + 100, which the divisions
    leave as the fraction 14400 / 144. *)
Lemma X16_household_income_nonneg_witness :
  exists q, XQ.Fin (14400 # 144) = XQ.Fin q /\ 0 <= q.
Proof.
  apply (X16_household_income_nonneg (fun _ => XQ.NaN)
           [XQ.Fin 500; XQ.Fin 100]
           (<[ 2%Z := XQ.Fin 0 ]> {[ 1%Z := XQ.Fin 0 ]}) [1%Z; 2%Z]
           (<[ 2%Z := XQ.Fin 0 ]> {[ 1%Z := XQ.Fin 0 ]})
           (<[ 2%Z := 1%Z ]> {[ 1%Z := 0%Z ]})
           [XQ.Fin 0; XQ.Fin 0] [XQ.Fin 0; XQ.Fin 0] [XQ.Fin 0; XQ.Fin 0]
           [5%Z; 5%Z] 5%Z (XQ.Fin (14400 # 144))).
  - vm_compute. reflexivity.
  - vm_compute. repeat constructor; discriminate.
Defined.

(** ** Income, exemption and benefit of one record *)

Section RecordFormulas.

Import XQ Pandas Grundsicherung.

Lemma div_fin (x y : Q) : ~ y == 0 -> div (Fin x) (Fin y) = Fin (x / y).
Proof.
  intros Hy. simpl. unfold sgn. destruct (y ?= 0) eqn:E; try reflexivity.
  apply Qeq_alt in E. contradiction.
Qed.

Lemma clip_lower_entry_fin (x : Q) :
  exists q, clip_lower_entry (Fin 0) (Fin x) = Fin q /\ q == Qmax x 0.
Proof.
  simpl. destruct (Qle_bool 0 x) eqn:E.
  - exists x. split; [reflexivity |]. apply Qle_bool_iff in E.
    symmetry. now apply Q.max_l.
  - exists 0. split; [reflexivity |].
    apply not_true_iff_false in E. rewrite Qle_bool_iff in E.
    symmetry. apply Q.max_r. apply Qnot_le_lt in E. lra.
Qed.

Lemma clip_upper_entry_fin (up x : Q) :
  exists q, clip_upper_entry (Fin up) (Fin x) = Fin q /\ q == Qmin x up.
Proof.
  simpl. destruct (Qle_bool x up) eqn:E.
  - exists x. split; [reflexivity |]. apply Qle_bool_iff in E.
    symmetry. now apply Q.min_l.
  - exists up. split; [reflexivity |].
    apply not_true_iff_false in E. rewrite Qle_bool_iff in E.
    symmetry. apply Q.min_r. apply Qnot_le_lt in E. lra.
Qed.

(** The share of a tax-unit amount that [replace] hands to a person. *)
Lemma replace_share_lookup (tu_id : IntSeries) (amount : GroupFloatSeries)
    (anz : GroupIntSeries) (i : nat) (t n : Z) (e : Q) :
  tu_id !! i = Some t -> amount !! t = Some (Fin e) -> anz !! t = Some n ->
  n <> 0%Z ->
  replace tu_id (group_div_scalar (group_div amount anz) 12) !! i
  = Some (Fin (e / inject_Z n / 12)).
Proof.
  intros Ht He Hn Hnz. unfold replace, group_div_scalar, group_div.
  rewrite list_lookup_fmap, Ht. cbn [fmap option_fmap option_map].
  rewrite lookup_fmap, lookup_merge, He, Hn.
  cbn [diag_None fmap option_fmap option_map default].
  unfold of_Z, id. rewrite (div_fin e).
  - rewrite div_fin by discriminate. reflexivity.
  - intros H. apply Hnz. unfold Qeq in H. simpl in H. lia.
Qed.

Lemma setitem_mask_idem (s : FloatSeries) (cond : BoolSeries) (v : xq) :
  setitem_mask (setitem_mask s cond v) cond v = setitem_mask s cond v.
Proof.
  revert cond. induction s as [| x s IH]; intros [| c cond]; simpl; try reflexivity.
  rewrite IH. destruct c; reflexivity.
Qed.

Lemma setitem_mask_entry (s : FloatSeries) (cond : BoolSeries) (v : xq)
    (i : nat) (y : xq) :
  setitem_mask s cond v !! i = Some y -> s !! i = Some y \/ y = v.
Proof.
  revert cond i. induction s as [| x s IH]; intros [| c cond] [| i]; simpl;
    try discriminate; auto.
  - intros [= <-]. destruct c; auto.
  - apply IH.
Qed.

End RecordFormulas.

(** X17.  The countable income of a person whose amounts are rationals
    and whose tax unit has a non-zero number of adults: the transfer
    income less a twelfth of the person's share of the income tax and
    of the surcharge of the tax unit, less contributions and the two
    exemptions, and [0] where that difference is negative. *)
Theorem X17_countable_income_of_a_person :
  forall (arbeitsl : Pandas.FloatSeries) (eink_st : gmap Z XQ.xq)
         (tu_id : Pandas.IntSeries) (soli : gmap Z XQ.xq) (anz : gmap Z Z)
         (sozialv anr_frei freibetrag : Pandas.FloatSeries)
         (i : nat) (t n : Z) (a e so sv af fb : Q),
    arbeitsl !! i = Some (XQ.Fin a) ->
    tu_id !! i = Some t ->
    eink_st !! t = Some (XQ.Fin e) ->
    soli !! t = Some (XQ.Fin so) ->
    anz !! t = Some n ->
    n <> 0%Z ->
    sozialv !! i = Some (XQ.Fin sv) ->
    anr_frei !! i = Some (XQ.Fin af) ->
    freibetrag !! i = Some (XQ.Fin fb) ->
    exists q,
      Grundsicherung.grundsicherung_eink arbeitsl eink_st tu_id soli anz
        sozialv anr_frei freibetrag !! i = Some (XQ.Fin q)
      /\ q == Qmax (a - e / inject_Z n / 12 - so / inject_Z n / 12 - sv - af - fb) 0.
Proof.
  intros arbeitsl eink_st tu_id soli anz sozialv anr_frei freibetrag
    i t n a e so sv af fb Ha Ht He Hso Hn Hnz Hsv Haf Hfb.
  unfold Grundsicherung.grundsicherung_eink, Pandas.clip_lower, Pandas.series_sub.
  rewrite list_lookup_fmap, !lookup_zip_with, Ha.
  rewrite (replace_share_lookup _ _ _ _ _ _ _ Ht He Hn Hnz).
  rewrite (replace_share_lookup _ _ _ _ _ _ _ Ht Hso Hn Hnz).
  rewrite Hsv, Haf, Hfb. cbn [mbind option_bind fmap option_fmap option_map XQ.sub].
  destruct (clip_lower_entry_fin
              (a - e / inject_Z n / 12 - so / inject_Z n / 12 - sv - af - fb))
    as (q & Hq & Hmax).
  exists q. split; [now rewrite Hq | exact Hmax].
Qed.

(** A pensioner with 900 in a tax unit of two adults with 1200 income
    tax and 60 surcharge a year keeps 900 - 50 - 2.5 - 100 - 30 - 20. *)
Lemma X17_countable_income_of_a_person_witness :
  exists q,
    Grundsicherung.grundsicherung_eink
      [XQ.Fin 900] {[ 1%Z := XQ.Fin 1200 ]} [1%Z] {[ 1%Z := XQ.Fin 60 ]}
      {[ 1%Z := 2%Z ]} [XQ.Fin 100] [XQ.Fin 30] [XQ.Fin 20] !! 0%nat
    = Some (XQ.Fin q)
    /\ q == Qmax (900 - 1200 / inject_Z 2 / 12 - 60 / inject_Z 2 / 12
                  - 100 - 30 - 20) 0.
Proof.
  apply (X17_countable_income_of_a_person
           [XQ.Fin 900] {[ 1%Z := XQ.Fin 1200 ]} [1%Z] {[ 1%Z := XQ.Fin 60 ]}
           {[ 1%Z := 2%Z ]} [XQ.Fin 100] [XQ.Fin 30] [XQ.Fin 20]
           0%nat 1%Z 2%Z);
    try reflexivity.
  discriminate.
Defined.

(** X18.  The exempt part of the wage is the smaller of 30 per cent of
    the wage and half the standard rate, so it exceeds neither; a
    missing wage stays missing. *)
Theorem X18_exempt_wage_share :
  forall (bruttolohn_m : Pandas.FloatSeries) (regelsatz_1 : Q) (i : nat),
    (forall w : Q,
        bruttolohn_m !! i = Some (XQ.Fin w) ->
        exists q,
          Grundsicherung.eink_anr_frei_grundsicherung bruttolohn_m regelsatz_1 !! i
          = Some (XQ.Fin q)
          /\ q == Qmin (w * (3 # 10)) ((1 # 2) * regelsatz_1)
          /\ q <= w * (3 # 10)
          /\ q <= (1 # 2) * regelsatz_1)
    /\ (bruttolohn_m !! i = Some XQ.NaN ->
        Grundsicherung.eink_anr_frei_grundsicherung bruttolohn_m regelsatz_1 !! i
        = Some XQ.NaN).
Proof.
  intros lohn r i.
  unfold Grundsicherung.eink_anr_frei_grundsicherung, Pandas.clip_upper,
    Pandas.series_mul_scalar.
  split.
  - intros w Hw. rewrite !list_lookup_fmap, Hw.
    cbn [fmap option_fmap option_map XQ.mul].
    destruct (clip_upper_entry_fin ((1 # 2) * r) (w * (3 # 10))) as (q & Hq & Hmin).
    exists q. split; [now rewrite Hq |]. split; [exact Hmin |].
    rewrite Hmin. split; [apply Q.le_min_l | apply Q.le_min_r].
  - intros Hw. rewrite !list_lookup_fmap, Hw. reflexivity.
Qed.

(** With a standard rate of 432 a wage of 2000 is exempt up to 216. *)
Lemma X18_exempt_wage_share_witness :
  exists q,
    Grundsicherung.eink_anr_frei_grundsicherung [XQ.Fin 100; XQ.Fin 2000] 432 !! 1%nat
    = Some (XQ.Fin q)
    /\ q == Qmin (2000 * (3 # 10)) ((1 # 2) * 432)
    /\ q <= 2000 * (3 # 10)
    /\ q <= (1 # 2) * 432.
Proof.
  apply (proj1 (X18_exempt_wage_share [XQ.Fin 100; XQ.Fin 2000] 432 1%nat)).
  reflexivity.
Defined.

(** X19.  The benefit of a record that no priority rule excludes: with
    rational amounts, no flag set, an age that has reached the regular
    age and as many retirees as adults, the benefit is the basic need
    less household income, maintenance advance and child benefit, and
    [0] where that difference is negative; so it is never negative and,
    with deductions that are not negative, never above a basic need
    that is not negative. *)
Theorem X19_benefit_of_an_eligible_record :
  forall (h : Pandas.heap) (r : Pandas.loc)
         (regelbedarf kindergeld unterhaltsvors eink_hh : Pandas.FloatSeries)
         (wv kv wkv : Pandas.BoolSeries)
         (regelaltersgrenze alter anz_erwachsene anz_rentner : Pandas.FloatSeries)
         (i : nat) (b k u e a g c : Q),
    h !! r = Some (Grundsicherung.grundsicherung_m_minus_eink_hh regelbedarf
                     kindergeld unterhaltsvors eink_hh) ->
    regelbedarf !! i = Some (XQ.Fin b) ->
    kindergeld !! i = Some (XQ.Fin k) ->
    unterhaltsvors !! i = Some (XQ.Fin u) ->
    eink_hh !! i = Some (XQ.Fin e) ->
    wv !! i = Some false -> kv !! i = Some false -> wkv !! i = Some false ->
    alter !! i = Some (XQ.Fin a) ->
    regelaltersgrenze !! i = Some (XQ.Fin g) ->
    g <= a ->
    anz_erwachsene !! i = Some (XQ.Fin c) ->
    anz_rentner !! i = Some (XQ.Fin c) ->
    exists q,
      Pandas.returned
        (Grundsicherung.grundsicherung_m_hh r wv kv wkv regelaltersgrenze alter
           anz_erwachsene anz_rentner) h !! i = Some (XQ.Fin q)
      /\ q == Qmax (b - e - u - k) 0
      /\ 0 <= q
      /\ (0 <= b -> 0 <= e -> 0 <= u -> 0 <= k -> q <= b).
Proof.
  intros h r regel kg uv eink wv kv wkv ra al ae ar i b k u e a g c
    Hr Hb Hk Hu He H1 H2 H3 Ha Hg Hga Hc1 Hc2.
  destruct (clip_lower_entry_fin (b - e - u - k)) as (q & Hq & Hmax).
  exists q. split; [| split; [exact Hmax | split]].
  - rewrite grundsicherung_m_hh_returned, Hr. simpl.
    rewrite (setitem_mask_lookup _ _ _ i (XQ.Fin q)
               (false || false || false || XQ.ltb (XQ.Fin a) (XQ.Fin g)
                || XQ.neb (XQ.Fin c) (XQ.Fin c))).
    + assert (XQ.ltb (XQ.Fin a) (XQ.Fin g) = false) as ->.
      { apply not_true_iff_false. rewrite ltb_fin. now apply Qle_not_lt. }
      assert (XQ.neb (XQ.Fin c) (XQ.Fin c) = false) as ->.
      { apply not_true_iff_false. rewrite neb_fin. intros H. now apply H. }
      reflexivity.
    + unfold Pandas.clip_lower, Grundsicherung.grundsicherung_m_minus_eink_hh,
        Pandas.series_sub.
      rewrite list_lookup_fmap, !lookup_zip_with, Hb, He, Hu, Hk.
      cbn [mbind option_bind fmap option_fmap option_map XQ.sub].
      now rewrite Hq.
    + now apply priority_cond_lookup.
  - rewrite Hmax. apply Q.le_max_r.
  - intros Hb0 He0 Hu0 Hk0. rewrite Hmax. apply Q.max_lub; lra.
Qed.

(** A retired couple with a basic need of 800, a household income of
    500 and nothing else: 300. *)
Lemma X19_benefit_of_an_eligible_record_witness :
  exists q,
    Pandas.returned
      (Grundsicherung.grundsicherung_m_hh 0 [false] [false] [false]
         [XQ.Fin 65] [XQ.Fin 70] [XQ.Fin 2] [XQ.Fin 2])
      [Grundsicherung.grundsicherung_m_minus_eink_hh [XQ.Fin 800] [XQ.Fin 0]
         [XQ.Fin 0] [XQ.Fin 500]] !! 0%nat
    = Some (XQ.Fin q)
    /\ q == Qmax (800 - 500 - 0 - 0) 0
    /\ 0 <= q
    /\ (0 <= 800 -> 0 <= 500 -> 0 <= 0 -> 0 <= 0 -> q <= 800).
Proof.
  apply (X19_benefit_of_an_eligible_record
           [Grundsicherung.grundsicherung_m_minus_eink_hh [XQ.Fin 800] [XQ.Fin 0]
              [XQ.Fin 0] [XQ.Fin 500]]
           0%nat [XQ.Fin 800] [XQ.Fin 0] [XQ.Fin 0] [XQ.Fin 500]
           [false] [false] [false] [XQ.Fin 65] [XQ.Fin 70] [XQ.Fin 2] [XQ.Fin 2]
           0%nat 800 0 0 500 70 65 2);
    try reflexivity.
  discriminate.
Defined.

(** X20.  Running the wealth check a second time on the same arguments
    changes nothing: the Series it left behind is left as it is, and no
    object is added to or removed from the heap. *)
Theorem X20_wealth_check_idempotent :
  forall (r : Pandas.loc) (unter : Pandas.BoolSeries) (h : Pandas.heap),
    Pandas.heap_after
      (Grundsicherung.regelbedarf_m_grundsicherung_vermögens_check_hh r unter)
      (Pandas.heap_after
         (Grundsicherung.regelbedarf_m_grundsicherung_vermögens_check_hh r unter) h)
    = Pandas.heap_after
        (Grundsicherung.regelbedarf_m_grundsicherung_vermögens_check_hh r unter) h
    /\ length (Pandas.heap_after
                 (Grundsicherung.regelbedarf_m_grundsicherung_vermögens_check_hh r unter)
                 h)
       = length h.
Proof.
  intros r unter h. rewrite !vermögens_check_hh_heap. split.
  - rewrite list_alter_alter_eq. apply list_alter_ext; [| reflexivity].
    intros s _. apply setitem_mask_idem.
  - apply length_alter.
Qed.

(** X21.  The wealth check only ever sets entries to zero and touches
    no other Series: every entry it returns is the entry of the basic
    need it was given or [0], the Series keeps its length, and every
    other object of the heap is as it was. *)
Theorem X21_wealth_check_only_zeroes :
  forall (r : Pandas.loc) (unter : Pandas.BoolSeries) (h : Pandas.heap)
         (s : Pandas.FloatSeries),
    h !! r = Some s ->
    length (Pandas.returned
              (Grundsicherung.regelbedarf_m_grundsicherung_vermögens_check_hh r unter) h)
    = length s
    /\ (forall (i : nat) (y : XQ.xq),
           Pandas.returned
             (Grundsicherung.regelbedarf_m_grundsicherung_vermögens_check_hh r unter) h
             !! i = Some y ->
           s !! i = Some y \/ y = XQ.Fin 0)
    /\ (forall l : Pandas.loc,
           l <> r ->
           Pandas.heap_after
             (Grundsicherung.regelbedarf_m_grundsicherung_vermögens_check_hh r unter) h
             !! l = h !! l).
Proof.
  intros r unter h s Hr.
  rewrite (vermögens_check_hh_returned _ _ _ _ Hr). split; [| split].
  - apply setitem_mask_length.
  - intros i y. apply setitem_mask_entry.
  - intros l Hl. rewrite vermögens_check_hh_heap.
    apply list_lookup_alter_ne. congruence.
Qed.

(** The basic need of the second household is written; the Series of
    wealth that lies beside it in the heap is not. *)
Lemma X21_wealth_check_only_zeroes_witness :
  Pandas.heap_after
    (Grundsicherung.regelbedarf_m_grundsicherung_vermögens_check_hh 0 [true; false])
    [[XQ.Fin 800; XQ.Fin 400]; [XQ.Fin 9000; XQ.Fin 10000]] !! 1%nat
  = Some [XQ.Fin 9000; XQ.Fin 10000].
Proof.
  apply (proj2 (proj2
    (X21_wealth_check_only_zeroes 0%nat [true; false]
       [[XQ.Fin 800; XQ.Fin 400]; [XQ.Fin 9000; XQ.Fin 10000]]
       [XQ.Fin 800; XQ.Fin 400] eq_refl)) 1%nat).
  discriminate.
Defined.

(** X22.  A person whose tax unit has no entry in the tax-unit Series:
    [replace] leaves the identifier of the tax unit in place of the
    share, so the identifier itself is subtracted, once for the income
    tax and once for the surcharge. *)
Theorem X22_income_with_unknown_tax_unit :
  forall (arbeitsl : Pandas.FloatSeries) (eink_st : gmap Z XQ.xq)
         (tu_id : Pandas.IntSeries) (soli : gmap Z XQ.xq) (anz : gmap Z Z)
         (sozialv anr_frei freibetrag : Pandas.FloatSeries)
         (i : nat) (t : Z) (a sv af fb : Q),
    arbeitsl !! i = Some (XQ.Fin a) ->
    tu_id !! i = Some t ->
    eink_st !! t = None -> soli !! t = None -> anz !! t = None ->
    sozialv !! i = Some (XQ.Fin sv) ->
    anr_frei !! i = Some (XQ.Fin af) ->
    freibetrag !! i = Some (XQ.Fin fb) ->
    exists q,
      Grundsicherung.grundsicherung_eink arbeitsl eink_st tu_id soli anz
        sozialv anr_frei freibetrag !! i = Some (XQ.Fin q)
      /\ q == Qmax (a - inject_Z t - inject_Z t - sv - af - fb) 0.
Proof.
  intros arbeitsl eink_st tu_id soli anz sozialv anr_frei freibetrag
    i t a sv af fb Ha Ht He Hso Hn Hsv Haf Hfb.
  assert (Hrep : forall amount : gmap Z XQ.xq,
             amount !! t = None ->
             Pandas.replace tu_id
               (Pandas.group_div_scalar (Pandas.group_div amount anz) 12) !! i
             = Some (XQ.Fin (inject_Z t))).
  { intros amount Hnone. unfold Pandas.replace, Pandas.group_div_scalar, Pandas.group_div.
    rewrite list_lookup_fmap, Ht. cbn [fmap option_fmap option_map].
    rewrite lookup_fmap, lookup_merge, Hnone, Hn. reflexivity. }
  unfold Grundsicherung.grundsicherung_eink, Pandas.clip_lower, Pandas.series_sub.
  rewrite list_lookup_fmap, !lookup_zip_with, Ha, (Hrep _ He), (Hrep _ Hso).
  rewrite Hsv, Haf, Hfb. cbn [mbind option_bind fmap option_fmap option_map XQ.sub].
  destruct (clip_lower_entry_fin (a - inject_Z t - inject_Z t - sv - af - fb))
    as (q & Hq & Hmax).
  exists q. split; [now rewrite Hq | exact Hmax].
Qed.

(** A person with 30 in tax unit 7, which has no entry: 30 - 7 - 7 - 9. *)
Lemma X22_income_with_unknown_tax_unit_witness :
  exists q,
    Grundsicherung.grundsicherung_eink
      [XQ.Fin 30] {[ 1%Z := XQ.Fin 1200 ]} [7%Z] {[ 1%Z := XQ.Fin 60 ]}
      {[ 1%Z := 2%Z ]} [XQ.Fin 0] [XQ.Fin 9] [XQ.Fin 0] !! 0%nat
    = Some (XQ.Fin q)
    /\ q == Qmax (30 - inject_Z 7 - inject_Z 7 - 0 - 9 - 0) 0.
Proof.
  apply (X22_income_with_unknown_tax_unit
           [XQ.Fin 30] {[ 1%Z := XQ.Fin 1200 ]} [7%Z] {[ 1%Z := XQ.Fin 60 ]}
           {[ 1%Z := 2%Z ]} [XQ.Fin 0] [XQ.Fin 9] [XQ.Fin 0] 0%nat 7%Z);
    reflexivity.
Defined.

(** X23.  Earning points do not shrink: with a positive average wage, a
    wage, a ceiling and a conversion factor that are not negative, the
    points of the year are not negative and the updated points are at
    least the points before. *)
Theorem X23_earning_points_do_not_shrink :
  forall (entgeltp bruttolohn_m : Q) (wohnort_ost : bool) (grenze : Q)
         (params : Rente.ges_rente_params),
    0 < Rente.beitragspflichtiges_durchschnittsentgelt params ->
    0 <= Rente.umrechnung_entgeltp_beitrittsgebiet params ->
    0 <= bruttolohn_m -> 0 <= grenze ->
    exists points,
      Rente.entgeltp_update_lohn bruttolohn_m wohnort_ost grenze params = Py.ok points
      /\ 0 <= points
      /\ entgeltp <= Rente.entgeltp_update entgeltp points.
Proof.
  intros ep l ost g params Havg Hum Hl Hg.
  unfold Rente.entgeltp_update_lohn, Rente.entgeltp_update.
  set (avg := Rente.beitragspflichtiges_durchschnittsentgelt params) in *.
  assert (Hd : 0 < (1 / 12) * avg) by (rewrite twelfth; lra).
  assert (Hnz : ~ (1 / 12) * avg == 0) by (rewrite twelfth; lra).
  rewrite (truediv_nonzero _ _ Hnz).
  set (scaled := if ost then l * Rente.umrechnung_entgeltp_beitrittsgebiet params else l).
  assert (Hs : 0 <= scaled).
  { unfold scaled. destruct ost; [apply Qmult_le_0_compat |]; assumption. }
  set (w := if Py.gt scaled g then g else scaled).
  assert (Hw : 0 <= w) by (unfold w; destruct (Py.gt scaled g); assumption).
  assert (Hp : 0 <= w / ((1 / 12) * avg)).
  { unfold Qdiv. apply Qmult_le_0_compat; [exact Hw |].
    apply Qlt_le_weak, Qinv_lt_0_compat, Hd. }
  eexists. split; [reflexivity |]. split; [exact Hp | lra].
Qed.

Lemma X23_earning_points_do_not_shrink_witness :
  exists points,
    Rente.entgeltp_update_lohn 3000 true 6450 Beispiel.ges_rente_params = Py.ok points
    /\ 0 <= points
    /\ 40 <= Rente.entgeltp_update 40 points.
Proof.
  apply (X23_earning_points_do_not_shrink 40 3000 true 6450
           Beispiel.ges_rente_params);
    [reflexivity | discriminate | discriminate | discriminate].
Defined.

(** X24.  The total pension of a person who is not retired is the
    private pension alone; for a retired person with earning points,
    pension value and supplement that are not negative it is at least
    the private pension. *)
Theorem X24_total_pension_at_least_private :
  forall (priv_rente_m : Q) (geburtsjahr jahr_renteneintr : Z) (rentner : bool)
         (regelaltersgrenze : Q) (params : Rente.ges_rente_params)
         (entgeltp rentenwert grundr_zuschlag_m : Q),
    let total r :=
      Rente.sum_ges_rente_priv_rente_m priv_rente_m
        (Rente.ges_rente_nach_grundr_m
           (Rente.ges_rente_vor_grundr_m
              (Rente.ges_rente_zugangsfaktor geburtsjahr r jahr_renteneintr
                 regelaltersgrenze params)
              entgeltp rentenwert r)
           grundr_zuschlag_m r) in
    total false == priv_rente_m
    /\ (0 <= entgeltp -> 0 <= rentenwert -> 0 <= grundr_zuschlag_m ->
        priv_rente_m <= total rentner).
Proof.
  intros priv gj jr rentner regel params ep rw z total. subst total. split.
  - unfold Rente.sum_ges_rente_priv_rente_m. simpl. ring.
  - intros Hep Hrw Hz.
    pose proof (zugangsfaktor_nonneg gj rentner jr regel params) as Hzf.
    unfold Rente.sum_ges_rente_priv_rente_m, Rente.ges_rente_nach_grundr_m,
      Rente.ges_rente_vor_grundr_m.
    destruct rentner; [| lra].
    assert (0 <= ep * Rente.ges_rente_zugangsfaktor gj true jr regel params)
      by (apply Qmult_le_0_compat; assumption).
    assert (0 <= ep * Rente.ges_rente_zugangsfaktor gj true jr regel params * rw)
      by (apply Qmult_le_0_compat; assumption).
    lra.
Qed.

Lemma X24_total_pension_at_least_private_witness :
  200 <= Rente.sum_ges_rente_priv_rente_m 200
           (Rente.ges_rente_nach_grundr_m
              (Rente.ges_rente_vor_grundr_m
                 (Rente.ges_rente_zugangsfaktor 1955 true 2018 (656 # 10)
                    Beispiel.ges_rente_params)
                 40 34 true)
              50 true).
Proof.
  apply (proj2 (X24_total_pension_at_least_private 200 1955 2018 true (656 # 10)
                  Beispiel.ges_rente_params 40 34 50));
    discriminate.
Defined.
